(** * psychopy.projects.pavlovia: a shallow embedding and its properties

    The development follows [psychopy/projects/pavlovia.py]: Python values,
    exceptions and a state-and-exception monad first, then the external
    libraries the module calls ([json], [os.path], [gitlab]) as an explicit
    interface, then the three classes [PavloviaTokenStorage],
    [PavloviaProject] and [PavloviaSession], and finally the properties. *)

From Stdlib Require Import ZArith Ascii String.
From stdpp Require Import base strings pretty gmap list fin_maps countable.

Set Warnings "-register-all".
Open Scope Z_scope.

(** ** Python values *)

(** Hashable values used as dictionary keys.  [True] and [False] hash and
    compare like [1] and [0], so they share the [KInt] keys. *)
Inductive PyKey :=
| KNone
| KInt (z : Z)
| KStr (s : string).

Global Instance PyKey_eq_dec : EqDecision PyKey.
Proof. solve_decision. Defined.

Global Instance PyKey_countable : Countable PyKey.
Proof.
  refine (inj_countable'
    (λ k, match k with
          | KNone => inl ()
          | KInt z => inr (inl z)
          | KStr s => inr (inr s)
          end)
    (λ x, match x with
          | inl _ => KNone
          | inr (inl z) => KInt z
          | inr (inr s) => KStr s
          end) _).
  by intros [].
Defined.

Global Instance KStr_inj : Inj (=) (=) KStr.
Proof. by intros ?? [= ->]. Qed.

(** The values that travel through this module: what [json.load] produces
    and what the hosting service returns in attribute bundles.  In a text
    [VStr s] one [ascii] of [s] stands for one character, so the length of
    [s] is the number of characters; texts with characters beyond U+00FF
    have no counterpart here, and neither have floating-point numbers.  A
    dictionary is kept as the finite map of its entries, without the order
    in which they were inserted. *)
Inductive PyVal :=
| VNone
| VBool (b : bool)
| VInt (z : Z)
| VStr (s : string)
| VList (l : list PyVal)
| VDict (d : gmap PyKey PyVal).

Abbreviation Dict := (gmap PyKey PyVal).

(** Truth value of [if v:]. *)
Definition truthy (v : PyVal) : bool :=
  match v with
  | VNone => false
  | VBool b => b
  | VInt z => negb (Z.eqb z 0)
  | VStr s => negb (String.eqb s "")
  | VList l => match l with [] => false | _ => true end
  | VDict d => negb (bool_decide (d = ∅))
  end.

(** Python's [a == b] on these values. *)
Fixpoint py_eqb (a b : PyVal) {struct a} : bool :=
  match a, b with
  | VNone, VNone => true
  | VBool x, VBool y => Bool.eqb x y
  | VBool x, VInt y | VInt y, VBool x => Z.eqb (Z.b2z x) y
  | VInt x, VInt y => Z.eqb x y
  | VStr x, VStr y => String.eqb x y
  | VList xs, VList ys =>
      (fix go (xs ys : list PyVal) : bool :=
         match xs, ys with
         | [], [] => true
         | x :: xs', y :: ys' => py_eqb x y && go xs' ys'
         | _, _ => false
         end) xs ys
  | VDict d1, VDict d2 =>
      Nat.eqb (size d1) (size d2) &&
      map_fold (λ k v acc,
                  acc && match d2 !! k with
                         | Some w => py_eqb v w
                         | None => false
                         end) true d1
  | _, _ => false
  end.

(** [x in l] for a list [l]: some element of [l] equals [x]. *)
Definition py_in (x : PyVal) (l : list PyVal) : bool :=
  existsb (λ e, py_eqb e x) l.

(** ** Exceptions and results *)

Inductive PyExn :=
| TypeError (msg : string)
| ValueError (msg : string)          (* with its subclasses: JSON and Unicode decode errors *)
| KeyError (key : string)
| AttributeError (msg : string)
| NotImplementedError
| RecursionError
| OSError (msg : string)             (* with its subclasses, told apart by the message *)
| GitlabAuthenticationError
| GitlabGetError
| GitlabListError.

Inductive Result (A : Type) :=
| Ok (a : A)
| Raise (e : PyExn).
Arguments Ok {A} a.
Arguments Raise {A} e.

Definition is_ValueError (e : PyExn) : bool :=
  match e with ValueError _ => true | _ => false end.

Definition is_NotImplementedError (e : PyExn) : bool :=
  match e with NotImplementedError => true | _ => false end.

(** The operand of a [raise] statement.  Only exception classes and
    instances can be raised; [raise] applied to anything else, such as the
    builtin constant [NotImplemented], raises [TypeError] instead. *)
Inductive RaiseOperand :=
| Exception (e : PyExn)
| NotImplemented.

Definition raise_stmt (o : RaiseOperand) : PyExn :=
  match o with
  | Exception e => e
  | NotImplemented => TypeError "exceptions must derive from BaseException"
  end.

(** [hash(v)] as far as dictionary keys are concerned. *)
Definition py_hash (v : PyVal) : Result PyKey :=
  match v with
  | VNone => Ok KNone
  | VBool b => Ok (KInt (Z.b2z b))
  | VInt z => Ok (KInt z)
  | VStr s => Ok (KStr s)
  | VList _ => Raise (TypeError "unhashable type: 'list'")
  | VDict _ => Raise (TypeError "unhashable type: 'dict'")
  end.

(** [v[key]] for a string literal [key]. *)
Definition getitem_str (v : PyVal) (key : string) : Result PyVal :=
  match v with
  | VDict d =>
      match d !! KStr key with
      | Some x => Ok x
      | None => Raise (KeyError key)
      end
  | VList _ => Raise (TypeError "list indices must be integers or slices, not str")
  | VStr _ => Raise (TypeError "string indices must be integers")
  | _ => Raise (TypeError "object is not subscriptable")
  end.

(** ** State and exceptions

    A computation over a mutable state [S] either returns or raises; in both
    cases the mutations done so far stay. *)
Definition Py (S A : Type) : Type := S → Result A * S.

Definition ret {S A} (a : A) : Py S A := λ s, (Ok a, s).
Definition raise {S A} (e : PyExn) : Py S A := λ s, (Raise e, s).
Definition bind {S A B} (m : Py S A) (k : A → Py S B) : Py S B :=
  λ s, match m s with
       | (Ok a, s') => k a s'
       | (Raise e, s') => (Raise e, s')
       end.
Definition get {S} : Py S S := λ s, (Ok s, s).
Definition modify {S} (f : S → S) : Py S unit := λ s, (Ok (), f s).
Definition lift {S A} (r : Result A) : Py S A := λ s, (r, s).

(** [try: m except ValueError: pass] *)
Definition except_ValueError_pass {S} (m : Py S unit) : Py S unit :=
  λ s, match m s with
       | (Raise e, s') => if is_ValueError e then (Ok (), s') else (Raise e, s')
       | r => r
       end.

(** Run a computation on one component of a pair state. *)
Definition on_fst {S T A} (m : Py S A) : Py (S * T) A :=
  λ st, let '(r, s') := m st.1 in (r, (s', st.2)).
Definition on_snd {S T A} (m : Py T A) : Py (S * T) A :=
  λ st, let '(r, t') := m st.2 in (r, (st.1, t')).

Declare Scope py_scope.
Delimit Scope py_scope with py.
Notation "'let*' x := m 'in' k" := (bind m (λ x, k))
  (at level 10, x name, m at level 100, k at level 200) : py_scope.
Notation "m ;;; k" := (bind m (λ _, k))
  (at level 100, k at level 200, right associativity) : py_scope.
Open Scope py_scope.

(** ** Builtin [dict] operations *)

Definition val_of_key (k : PyKey) : PyVal :=
  match k with
  | KNone => VNone
  | KInt z => VInt z
  | KStr s => VStr s
  end.

(** One element of the sequence given to [dict.update]: it must itself be
    a sequence of length two, the key and the value.  A string is the
    sequence of its characters, a dictionary the sequence of its keys.
    Python takes the two keys of a dictionary in insertion order, which a
    finite map does not record: for such an element the order is the one of
    [map_to_list], so that the key and the value may come out exchanged. *)
Definition pair_of_item (item : PyVal) : Result (PyVal * PyVal) :=
  match item with
  | VList [k; v] => Ok (k, v)
  | VStr (String a (String b EmptyString)) =>
      Ok (VStr (String a EmptyString), VStr (String b EmptyString))
  | VDict d =>
      match map_to_list d with
      | [(k1, _); (k2, _)] => Ok (val_of_key k1, val_of_key k2)
      | _ => Raise (ValueError "dictionary update sequence element has length other than 2")
      end
  | VList _ | VStr _ =>
      Raise (ValueError "dictionary update sequence element has length other than 2")
  | _ => Raise (TypeError "cannot convert dictionary update sequence element to a sequence")
  end.

(** [d[k] = v] *)
Definition dict_setitem (k v : PyVal) : Py Dict unit :=
  let* k' := lift (py_hash k) in
  modify (λ d : Dict, <[k' := v]> d).

Fixpoint update_from_pairs (items : list PyVal) : Py Dict unit :=
  match items with
  | [] => ret ()
  | item :: rest =>
      let* kv := lift (pair_of_item item) in
      dict_setitem kv.1 kv.2 ;;;
      update_from_pairs rest
  end.

(** [d.update(other)]: a mapping is merged key by key, the entries of
    [other] replacing those of [d]; anything else is iterated as a sequence
    of key/value pairs. *)
Definition dict_update (other : PyVal) : Py Dict unit :=
  match other with
  | VDict o => modify (λ d : Dict, o ∪ d)
  | VList items => update_from_pairs items
  | VStr EmptyString => ret ()
  | VStr _ =>
      raise (ValueError "dictionary update sequence element #0 has length 1; 2 is required")
  | _ => raise (TypeError "object is not iterable")
  end.

(** ** String formatting *)

(** [fmt % args] for a tuple [args], with the conversions [%s] ([str_of]
    is [str]) and [%%]; this module uses no other conversion.  Arguments
    left over when the format is exhausted are an error. *)
Fixpoint percent_format (str_of : PyVal → string) (fmt : string)
    (args : list PyVal) : Result string :=
  match fmt with
  | EmptyString =>
      match args with
      | [] => Ok EmptyString
      | _ => Raise (TypeError "not all arguments converted during string formatting")
      end
  | String c rest =>
      if bool_decide (c = "%"%char) then
        match rest with
        | EmptyString => Raise (ValueError "incomplete format")
        | String c' rest' =>
            if bool_decide (c' = "%"%char) then
              match percent_format str_of rest' args with
              | Ok out => Ok (String "%" out)
              | Raise e => Raise e
              end
            else if bool_decide (c' = "s"%char) then
              match args with
              | [] => Raise (TypeError "not enough arguments for format string")
              | a :: args' =>
                  match percent_format str_of rest' args' with
                  | Ok out => Ok (str_of a +:+ out)
                  | Raise e => Raise e
                  end
              end
            else Raise (ValueError "unsupported format character")
        end
      else
        match percent_format str_of rest args with
        | Ok out => Ok (String c out)
        | Raise e => Raise e
        end
  end.

(** ** The libraries and constants the module imports

    [prefs.paths], [constants.PY3], [os.path.join] and the [json] codec are
    not part of this module; they are taken as an interface.  [json_load]
    stands for [json.load] applied to the bytes of an open file (decoding
    included): it returns the decoded value or raises, [ValueError] when the
    bytes are not valid JSON. *)
Class Externals := {
  userPrefsDir : string;
  PY3 : bool;
  os_path_join : string → string → string;
  json_load : string → Result PyVal;
  json_dumps : PyVal → string;
}.

(** ** The hosting-service client (package [gitlab]) *)

Module Gitlab.

(** A [gitlab.v4.objects.Project], as far as this module observes it. *)
Record Project := {
  _attrs : Dict;                    (* proj._attrs, the fetched bundle *)
  attributes : Dict;                (* proj.attributes *)
  dict_attributes : option Dict;    (* proj.__dict__['attributes'], when that entry exists *)
}.

(** [proj.name] for a field of the bundle. *)
Definition getattr (p : Project) (name : string) : Result PyVal :=
  match _attrs p !! KStr name with
  | Some v => Ok v
  | None => Raise (AttributeError name)
  end.

Record User := { username : string }.

(** A [gitlab.Gitlab] client; [user] is set by [auth()]. *)
Record t := {
  url : string;
  oauth_token : PyVal;
  user : option User;
}.

(** Keyword arguments of [projects.list]; [None] for one not given. *)
Record ListOptions := {
  search : option PyVal;
  owned : option bool;
  membership : option bool;
  as_list : option bool;
}.

End Gitlab.

(** ** Objects of this module *)

Record PavloviaProject := {
  _proj : Gitlab.Project;
  instance_dict : Dict;     (* the entries of self.__dict__ other than '_proj' *)
}.

Record PavloviaSession := {
  username : PyVal;
  password : PyVal;
  userID : PyVal;
  userFullName : PyVal;
  remember_me : bool;
  authenticated : bool;
  currentProject : option PavloviaProject;
  gitlab : option Gitlab.t;
  token : option PyVal;     (* self.__dict__['token'], absent before setToken *)
}.

(** Anything that can be passed where the source expects a project or an
    id. *)
Inductive PyObj :=
| OVal (v : PyVal)
| OProject (p : Gitlab.Project)
| OSession (s : PavloviaSession).

Definition obj_truthy (o : PyObj) : bool :=
  match o with
  | OVal v => truthy v
  | _ => true
  end.

(** The remote service: what it answers to the three requests the module
    sends, each made with the client's token. *)
Record Server := {
  get_user : PyVal → Result Gitlab.User;
  get_project : PyVal → PyObj → Result Gitlab.Project;
  list_projects : PyVal → Gitlab.ListOptions → Result (list Gitlab.Project);
}.

Inductive Request :=
| GetUser (token : PyVal)
| GetProject (token : PyVal) (id : PyObj)
| ListProjects (token : PyVal) (opts : Gitlab.ListOptions).

(** Everything outside the objects themselves: the file system (regular
    files with their content, and directories), the remote service with the
    log of the requests sent to it, the standard output, and the module
    global [currentSession]. *)
Record World := {
  files : gmap string string;
  dirs : gset string;
  server : Server;
  requests : list Request;
  stdout : list PyObj;
  currentSession : PavloviaSession;
}.

Definition set_files (f : gmap string string → gmap string string) (w : World) : World :=
  {| files := f (files w); dirs := dirs w; server := server w;
     requests := requests w; stdout := stdout w;
     currentSession := currentSession w |}.

Definition set_dirs (f : gset string → gset string) (w : World) : World :=
  {| files := files w; dirs := f (dirs w); server := server w;
     requests := requests w; stdout := stdout w;
     currentSession := currentSession w |}.

Definition send (r : Request) (w : World) : World :=
  {| files := files w; dirs := dirs w; server := server w;
     requests := requests w ++ [r]; stdout := stdout w;
     currentSession := currentSession w |}.

(** [print(o)] *)
Definition print (o : PyObj) : Py World unit :=
  modify (λ w,
    {| files := files w; dirs := dirs w; server := server w;
       requests := requests w; stdout := stdout w ++ [o];
       currentSession := currentSession w |}).

(** The directories above [path]: for [/home/user/x] they are [/home] and
    [/home/user].  Paths are taken as normalised (no doubled or trailing
    separator, no [..]); the root and the working directory always exist and
    are not listed. *)
Fixpoint ancestors_from (prefix path : string) : list string :=
  match path with
  | EmptyString => []
  | String c rest =>
      (if bool_decide (c = "/"%char) && negb (String.eqb prefix EmptyString)
       then [prefix] else [])
      ++ ancestors_from (prefix +:+ String c EmptyString) rest
  end.

Definition ancestors (path : string) : list string :=
  ancestors_from EmptyString path.

(** [os.makedirs(path)], called when [path] is not a directory: it makes
    [path] and every missing directory above it.  It fails when something
    already has the name, and when a regular file stands where a directory
    above [path] is needed; nothing is made then. *)
Definition os_makedirs (path : string) : Py World unit :=
  let* w := get in
  if bool_decide (path ∈ dirs w) || bool_decide (is_Some (files w !! path))
  then raise (OSError "File exists")
  else if bool_decide (Exists (λ a, is_Some (files w !! a)) (ancestors path))
  then raise (OSError "Not a directory")
  else modify (set_dirs (λ d, {[path]} ∪ list_to_set (ancestors path) ∪ d)).

(** [open(path, 'wb')]: creates or truncates the file.  It fails when
    [path] is a directory, when a regular file stands where a directory above
    [path] is needed, and when a directory above [path] is missing. *)
Definition open_wb (path : string) : Py World unit :=
  let* w := get in
  if bool_decide (path ∈ dirs w)
  then raise (OSError "Is a directory")
  else if bool_decide (Exists (λ a, is_Some (files w !! a)) (ancestors path))
  then raise (OSError "Not a directory")
  else if bool_decide (Exists (λ a, a ∉ dirs w) (ancestors path))
  then raise (OSError "No such file or directory")
  else modify (set_files (λ f, <[path := EmptyString]> f)).

(** [f.write(data)] on the file opened at [path]. *)
Definition write (path data : string) : Py World unit :=
  modify (set_files (λ f, <[path := data]> f)).

(** [bytes(s, 'UTF-8')]: file contents are byte strings, and the text
    [json.dumps] produces is ASCII, which UTF-8 leaves as it is. *)
Definition bytes_utf8 (s : string) : string := s.

(** ** class PavloviaTokenStorage(dict) *)

Module PavloviaTokenStorage.
Section methods.
Context `{E : Externals}.

Definition load (filename : option string) (w : World) : Py Dict unit :=
  let filename :=
    match filename with
    | None => os_path_join userPrefsDir "pavlovia.json"
    | Some f => f
    end in
  match files w !! filename with        (* os.path.isfile(filename) *)
  | Some content =>
      except_ValueError_pass
        (let* other := lift (json_load content) in
         dict_update other)
  | None => ret ()
  end.

(** [dict.__init__] fills the new store with [initial], the entries its
    arguments denote; then [self.load()]. *)
Definition __init__ (initial : Dict) (w : World) : Result unit * Dict :=
  load None w initial.

(** The expression [PavloviaTokenStorage(...)]: the new store, unless
    [__init__] raises. *)
Definition new (initial : Dict) : Py World Dict :=
  λ w, match __init__ initial w with
       | (Ok _, self) => (Ok self, w)
       | (Raise e, _) => (Raise e, w)
       end.

Definition save (self : Dict) (filename : option string) : Py World unit :=
  let filename :=
    match filename with
    | None => os_path_join userPrefsDir "pavlovia.json"
    | Some f => f
    end in
  let* w := get in
  (if bool_decide (userPrefsDir ∈ dirs w) then ret ()
   else os_makedirs userPrefsDir) ;;;
  open_wb filename ;;;
  let json_str := json_dumps (VDict self) in
  if PY3 then write filename (bytes_utf8 json_str)
  else write filename json_str.

End methods.
End PavloviaTokenStorage.

(** ** Calls to the hosting service *)

(** [gitlab.Gitlab(url, oauth_token=token)]: builds the client, sends
    nothing. *)
Definition Gitlab_new (url : string) (token : PyVal) : Gitlab.t :=
  {| Gitlab.url := url; Gitlab.oauth_token := token; Gitlab.user := None |}.

(** [g.auth()]: asks the service for the current user and stores it in the
    client, which is returned; the service's refusal is raised. *)
Definition Gitlab_auth (g : Gitlab.t) : Py World Gitlab.t :=
  modify (send (GetUser (Gitlab.oauth_token g))) ;;;
  let* w := get in
  let* u := lift (get_user (server w) (Gitlab.oauth_token g)) in
  ret {| Gitlab.url := Gitlab.url g;
         Gitlab.oauth_token := Gitlab.oauth_token g;
         Gitlab.user := Some u |}.

(** [g.user.username] *)
Definition Gitlab_user_username (g : Gitlab.t) : Result PyVal :=
  match Gitlab.user g with
  | Some u => Ok (VStr (Gitlab.username u))
  | None => Raise (AttributeError "'Gitlab' object has no attribute 'user'")
  end.

(** [g.projects.get(id)], where [g] is the [gitlab] attribute of a session
    and may be [None]. *)
Definition Gitlab_projects_get (g : option Gitlab.t) (id : PyObj)
  : Py World Gitlab.Project :=
  match g with
  | None => raise (AttributeError "'NoneType' object has no attribute 'projects'")
  | Some g =>
      modify (send (GetProject (Gitlab.oauth_token g) id)) ;;;
      let* w := get in
      lift (get_project (server w) (Gitlab.oauth_token g) id)
  end.

(** [g.projects.list(...)] with the keyword arguments [opts] *)
Definition Gitlab_projects_list (g : option Gitlab.t) (opts : Gitlab.ListOptions)
  : Py World (list Gitlab.Project) :=
  match g with
  | None => raise (AttributeError "'NoneType' object has no attribute 'projects'")
  | Some g =>
      modify (send (ListProjects (Gitlab.oauth_token g) opts)) ;;;
      let* w := get in
      lift (list_projects (server w) (Gitlab.oauth_token g) opts)
  end.

(** ** class PavloviaProject *)

(** A [return] followed by further statements: the statements after it are
    never executed. *)
Definition return_then {A} (returned : Result A) (unreachable : Result A)
  : Result A := returned.

Module PavloviaProject.

(** What an attribute of a project can be: a plain value, or the wrapped
    gitlab object stored under ['_proj']. *)
Inductive Attr :=
| AVal (v : PyVal)
| AProj (p : Gitlab.Project).

(** Binding of the arguments of a call [PavloviaProject(...)] to the
    parameters of [def __init__(self, proj)]. *)
Definition bind_arguments (args : list PyObj) (kwargs : list (string * PyObj))
  : Result PyObj :=
  match filter (λ kv : string * PyObj, kv.1 ≠ "proj") kwargs with
  | (k, _) :: _ =>
      Raise (TypeError ("__init__() got an unexpected keyword argument '" +:+ k +:+ "'"))
  | [] =>
      match args, kwargs with
      | [proj], [] => Ok proj
      | [], (_, proj) :: _ => Ok proj
      | [], [] =>
          Raise (TypeError "__init__() missing 1 required positional argument: 'proj'")
      | [_], _ :: _ =>
          Raise (TypeError "__init__() got multiple values for argument 'proj'")
      | _ :: _ :: _, _ =>
          Raise (TypeError "__init__() takes 2 positional arguments but more were given")
      end
  end.

Definition __init__ (proj : PyObj) : Py World PavloviaProject :=
  match proj with
  | OProject p =>                    (* isinstance(proj, gitlab.v4.objects.Project) *)
      ret {| _proj := p; instance_dict := ∅ |}
  | _ =>
      print proj ;;;
      let* w := get in
      let* p := Gitlab_projects_get (gitlab (currentSession w)) proj in
      ret {| _proj := p; instance_dict := ∅ |}
  end.

(** A call [PavloviaProject(...)] with positional arguments [args] and
    keyword arguments [kwargs]. *)
Definition new (args : list PyObj) (kwargs : list (string * PyObj))
  : Py World PavloviaProject :=
  let* proj := lift (bind_arguments args kwargs) in
  __init__ proj.

Definition __repr__ (self : PavloviaProject) : string := "PavloviaProject".

(** [self.__dict__] *)
Definition __dict__ (self : PavloviaProject) : gmap PyKey Attr :=
  <[KStr "_proj" := AProj (_proj self)]> (AVal <$> instance_dict self).

(** The [for attDict in toSearch] loop. *)
Fixpoint search (toSearch : list (gmap PyKey Attr)) (name : string) : option Attr :=
  match toSearch with
  | [] => None
  | attDict :: rest =>
      match attDict !! KStr name with
      | Some v => Some v
      | None => search rest name
      end
  end.

(** The dictionaries [__getattr__] searches, in order. *)
Definition toSearch (self : PavloviaProject) : list (gmap PyKey Attr) :=
  let proj := _proj self in
  [__dict__ self; AVal <$> Gitlab._attrs proj] ++
  match Gitlab.dict_attributes proj with
  | Some attributes => [AVal <$> attributes]
  | None => []
  end.

Definition __getattr__ (self : PavloviaProject) (name : string) : Result Attr :=
  if String.eqb name "owner" then Ok (AVal VNone)
  else
    match search (toSearch self) name with
    | Some v => Ok v
    | None =>
        let selfDescr :=
          if String.eqb name "id" then "PavloviaProject"
          else __repr__ self in
        Raise (AttributeError ("No attribute '" +:+ name +:+ "' in " +:+ selfDescr))
    end.

Definition attributes (self : PavloviaProject) : Dict :=
  Gitlab.attributes (_proj self).

Definition id (self : PavloviaProject) : PyVal :=
  match attributes self !! KStr "id" with
  | None => VNone
  | Some v => v
  end.

(** [d[k1][k2]] for a dictionary [d] and two string literals. *)
Definition subscript2 (d : Dict) (k1 k2 : string) : Result PyVal :=
  match getitem_str (VDict d) k1 with
  | Ok v => getitem_str v k2
  | Raise e => Raise e
  end.

Definition owner (self : PavloviaProject) : Result PyVal :=
  return_then
    (subscript2 (Gitlab.attributes (_proj self)) "namespace" "name")
    (if bool_decide (is_Some (Gitlab.attributes (_proj self) !! KStr "owner"))
     then subscript2 (Gitlab.attributes (_proj self)) "owner" "username"
     else subscript2 (Gitlab.attributes (_proj self)) "namespace" "name").

(** Reading a property whose body raises [AttributeError]: attribute
    access then falls back to [__getattr__] with the property's own name. *)
Definition property_fallback (self : PavloviaProject) (name : string)
    (body : Result Attr) : Result Attr :=
  match body with
  | Raise (AttributeError _) => __getattr__ self name
  | r => r
  end.

(** [self.name]; the body of the property [title]. *)
Definition title (self : PavloviaProject) : Result Attr :=
  property_fallback self "title" (__getattr__ self "name").

(** [self.tag_list]; the body of the property [tags]. *)
Definition tags (self : PavloviaProject) : Result Attr :=
  property_fallback self "tags" (__getattr__ self "tag_list").

(** [str_of] is the builtin [str], which the format would use. *)
Definition __str__ (str_of : PyVal → string) (self : PavloviaProject)
  : Result string :=
  percent_format str_of "PavloviaProject {}: {}" [id self; VDict (attributes self)].

End PavloviaProject.

(** ** class PavloviaSession *)

(** The keyword arguments of the two [projects.list] calls of
    [findUserProjects]. *)
Definition owned_query : Gitlab.ListOptions :=
  {| Gitlab.search := None; Gitlab.owned := Some true;
     Gitlab.membership := None; Gitlab.as_list := None |}.
Definition membership_query : Gitlab.ListOptions :=
  {| Gitlab.search := None; Gitlab.owned := Some false;
     Gitlab.membership := Some true; Gitlab.as_list := None |}.

Definition rootURL : string := "https://gitlab.pavlovia.org".

Definition set_token (t : PyVal) (s : PavloviaSession) : PavloviaSession :=
  {| username := username s; password := password s; userID := userID s;
     userFullName := userFullName s; remember_me := remember_me s;
     authenticated := authenticated s; currentProject := currentProject s;
     gitlab := gitlab s; token := Some t |}.

Definition set_gitlab (g : Gitlab.t) (s : PavloviaSession) : PavloviaSession :=
  {| username := username s; password := password s; userID := userID s;
     userFullName := userFullName s; remember_me := remember_me s;
     authenticated := authenticated s; currentProject := currentProject s;
     gitlab := Some g; token := token s |}.

Definition set_username (u : PyVal) (s : PavloviaSession) : PavloviaSession :=
  {| username := u; password := password s; userID := userID s;
     userFullName := userFullName s; remember_me := remember_me s;
     authenticated := authenticated s; currentProject := currentProject s;
     gitlab := gitlab s; token := token s |}.

Definition set_currentProject (p : PavloviaProject) (s : PavloviaSession)
  : PavloviaSession :=
  {| username := username s; password := password s; userID := userID s;
     userFullName := userFullName s; remember_me := remember_me s;
     authenticated := authenticated s; currentProject := Some p;
     gitlab := gitlab s; token := token s |}.

(** A statement working on a local dictionary [d]; gives the dictionary
    after the statement. *)
Definition on_local {S} (d : Dict) (m : Py Dict unit) : Py S Dict :=
  λ s, match m d with
       | (Ok _, d') => (Ok d', s)
       | (Raise e, _) => (Raise e, s)
       end.

Module PavloviaSession.
Section methods.
Context `{E : Externals}.

Definition setToken (token : PyVal) : Py (PavloviaSession * World) unit :=
  on_fst (modify (set_token token)) ;;;        (* self.__dict__['token'] = token *)
  if truthy token then
    on_fst (modify (set_gitlab (Gitlab_new rootURL token))) ;;;
    let* g := on_snd (Gitlab_auth (Gitlab_new rootURL token)) in
    on_fst (modify (set_gitlab g)) ;;;
    let* name := lift (Gitlab_user_username g) in
    on_fst (modify (set_username name)) ;;;
    on_fst (modify (set_token token)) ;;;
    let* self := on_fst get in
    if remember_me self then
      let* tokens := on_snd (PavloviaTokenStorage.new ∅) in
      let* tokens := on_local tokens (dict_setitem (username self) token) in
      on_snd (PavloviaTokenStorage.save tokens None)
    else ret ()
  else ret ().

Definition __init__ (token : PyVal) (remember_me : bool)
  : Py World PavloviaSession :=
  λ w,
    let self :=
      {| username := VNone; password := VNone; userID := VNone;
         userFullName := VNone; remember_me := remember_me;
         authenticated := false; currentProject := None;
         gitlab := None; token := None |} in
    match setToken token (self, w) with
    | (Ok _, (self', w')) => (Ok self', w')
    | (Raise e, (_, w')) => (Raise e, w')
    end.

Definition openProject (projID : PyObj)
  : Py (PavloviaSession * World) PavloviaProject :=
  let* self := on_fst get in
  let* proj := on_snd (PavloviaProject.new []
                         [("session", OSession self); ("id", projID)]) in
  on_fst (modify (set_currentProject proj)) ;;;
  ret proj.

Definition createProject (title : PyVal) (descr : PyVal) (tags : PyVal)
    (public : PyVal) (category : PyVal)
  : Py (PavloviaSession * World) unit :=
  raise (raise_stmt NotImplemented).

Definition projectFromID (id : PyObj)
  : Py (PavloviaSession * World) (option PavloviaProject) :=
  if obj_truthy id then
    let* proj := on_snd (PavloviaProject.new [id] []) in
    ret (Some proj)
  else ret None.

(** The loop of [findUserProjects] over [own+group], with the two lists
    it builds. *)
Fixpoint findUserProjects_loop (todo : list Gitlab.Project)
    (projs : list PavloviaProject) (projIDs : list PyVal)
  : Py World (list PavloviaProject) :=
  match todo with
  | [] => ret projs
  | proj :: rest =>
      let* id := lift (Gitlab.getattr proj "id") in
      if truthy id && negb (py_in id projIDs) then
        let* p := PavloviaProject.new [OProject proj] [] in
        findUserProjects_loop rest (projs ++ [p]) (projIDs ++ [id])
      else findUserProjects_loop rest projs projIDs
  end.

Definition findUserProjects
  : Py (PavloviaSession * World) (list PavloviaProject) :=
  let* self := on_fst get in
  let* own := on_snd (Gitlab_projects_list (gitlab self) owned_query) in
  let* group := on_snd (Gitlab_projects_list (gitlab self) membership_query) in
  on_snd (findUserProjects_loop (own ++ group) [] []).

Definition getToken (self : PavloviaSession) : Result PyVal :=
  match token self with
  | Some t => Ok t
  | None => Raise (KeyError "token")
  end.

Definition applyChanges : Py (PavloviaSession * World) unit :=
  raise (raise_stmt NotImplemented).

(** The list comprehension of [findProjects]:
    [[PavloviaProject(proj) for proj in rawProjs if proj.id]]. *)
Fixpoint findProjects_comprehension (rawProjs : list Gitlab.Project)
  : Py World (list PavloviaProject) :=
  match rawProjs with
  | [] => ret []
  | proj :: rest =>
      let* id := lift (Gitlab.getattr proj "id") in
      if truthy id then
        let* p := PavloviaProject.new [OProject proj] [] in
        let* projs := findProjects_comprehension rest in
        ret (p :: projs)
      else findProjects_comprehension rest
  end.

(** The keyword arguments of the [projects.list] call of [findProjects]. *)
Definition search_query (search_str : PyVal) : Gitlab.ListOptions :=
  {| Gitlab.search := Some search_str; Gitlab.owned := None;
     Gitlab.membership := None; Gitlab.as_list := Some false |}.

(** With [as_list=False] the client pages through the answer while the
    comprehension iterates; the pages are one [ListProjects] request here. *)
Definition findProjects (search_str : PyVal) (tags : PyVal)
  : Py (PavloviaSession * World) (list PavloviaProject) :=
  let* self := on_fst get in
  let* rawProjs := on_snd (Gitlab_projects_list (gitlab self)
                             (search_query search_str)) in
  on_snd (findProjects_comprehension rawProjs).

(** The property [user]: [hasattr(self.gitlab, 'user')] holds once the
    client has authenticated. *)
Definition user (self : PavloviaSession) : option Gitlab.User :=
  match gitlab self with
  | Some g =>
      match Gitlab.user g with
      | Some u => Some u
      | None => None
      end
  | None => None
  end.

End methods.
End PavloviaSession.

(** ** Module-level functions *)

Definition client_id : string :=
  "4bb79f0356a566cd7b49e3130c714d9140f1d3de4ff27c7583fb34fbfac604e0".
Definition redirect_url : string := "https://gitlab.pavlovia.org/".

(** [getAuthURL()]; [uuid] is the text of the identifier [uuid4()] draws. *)
Definition getAuthURL (uuid : string) : string * string :=
  let state := uuid in
  let auth_url :=
    "https://gitlab.pavlovia.org/oauth/authorize?client_id=" +:+ client_id +:+
    "&redirect_uri=" +:+ redirect_url +:+
    "&response_type=token&state=" +:+ state in
  (auth_url, state).

(** The module global [tokenStorage] and the dictionary
    [prefs.appData['projects']], which [login] reads and writes. *)
Record Globals := {
  tokenStorage : Dict;
  appData_projects : Dict;
}.

Definition set_appData_projects (f : Dict → Dict) (g : Globals) : Globals :=
  {| tokenStorage := tokenStorage g; appData_projects := f (appData_projects g) |}.

Definition set_currentSession (s : PavloviaSession) (w : World) : World :=
  {| files := files w; dirs := dirs w; server := server w;
     requests := requests w; stdout := stdout w; currentSession := s |}.

(** A method call [currentSession.m(...)]: [self] is the global object, so
    what the method does to [self] is done to the global, also when it
    raises. *)
Definition on_currentSession {A} (m : Py (PavloviaSession * World) A)
  : Py World A :=
  λ w, let '(r, (self, w')) := m (currentSession w, w) in
       (r, set_currentSession self w').

(** [currentSession.user.username] *)
Definition currentSession_user_username (w : World) : Result PyVal :=
  match PavloviaSession.user (currentSession w) with
  | Some u => Ok (VStr (Gitlab.username u))
  | None => Raise (AttributeError "'NoneType' object has no attribute 'username'")
  end.

Definition login `{E : Externals} (tokenOrUsername : PyVal) (rememberMe : bool)
  : Py (Globals * World) unit :=
  let* globals := on_fst get in
  let* key := lift (py_hash tokenOrUsername) in   (* tokenOrUsername in tokenStorage *)
  let token :=
    match tokenStorage globals !! key with
    | Some stored => stored
    | None => tokenOrUsername
    end in
  on_snd (on_currentSession (PavloviaSession.setToken token)) ;;;
  let* w := on_snd get in
  let* name := lift (currentSession_user_username w) in
  on_fst (modify (set_appData_projects
                    (λ d : Dict, <[KStr "pavloviaUser" := name]> d))).

(** ** A concrete environment

    An instance of everything the module takes from outside, on which the
    definitions above can be run: a JSON codec, a POSIX path join, and a
    hosting service with three projects and one user.

    The codec covers the token file, an object of strings.  It writes one
    as [json.dumps] does, [{"user": "token", ...}] with [", "] and [": "]
    as separators and the quote and the backslash escaped, which is all the
    escaping printable characters need, and it reads such a text back as
    [json.load] does.  Values that are not strings are written as [null];
    other texts are refused with [ValueError], or [RecursionError] when
    they open more arrays than the interpreter nests calls. *)

Definition dquote : ascii := "034"%char.
Definition backslash : ascii := "092"%char.

Fixpoint demo_escape (s : string) : string :=
  match s with
  | EmptyString => EmptyString
  | String c rest =>
      if bool_decide (c = dquote) || bool_decide (c = backslash)
      then String backslash (String c (demo_escape rest))
      else String c (demo_escape rest)
  end.

Definition demo_quote (s : string) : string :=
  String dquote (demo_escape s +:+ String dquote EmptyString).

Definition demo_dumps_val (v : PyVal) : string :=
  match v with
  | VStr s => demo_quote s
  | _ => "null"
  end.

Definition demo_dumps_key (k : PyKey) : string :=
  match k with
  | KStr s => demo_quote s
  | KInt z => demo_quote (pretty z)
  | KNone => demo_quote "null"
  end.

Definition demo_json_dumps (v : PyVal) : string :=
  match v with
  | VDict d =>
      "{" +:+ String.concat ", "
               ((λ kv : PyKey * PyVal, demo_dumps_key kv.1 +:+ ": " +:+ demo_dumps_val kv.2)
                  <$> map_to_list d) +:+ "}"
  | _ => demo_dumps_val v
  end.

(** Reads a string literal after its opening quote: the text and what
    follows the closing quote. *)
Fixpoint demo_read_string (s : string) (acc : string) : option (string * string) :=
  match s with
  | EmptyString => None
  | String c rest =>
      if bool_decide (c = dquote) then Some (acc, rest)
      else if bool_decide (c = backslash) then
        match rest with
        | String c' rest' => demo_read_string rest' (acc +:+ String c' EmptyString)
        | EmptyString => None
        end
      else demo_read_string rest (acc +:+ String c EmptyString)
  end.

(** What follows [prefix] in [s], when [s] starts with it. *)
Fixpoint demo_expect (prefix s : string) : option string :=
  match prefix, s with
  | EmptyString, _ => Some s
  | String c prefix', String d s' =>
      if bool_decide (c = d) then demo_expect prefix' s' else None
  | String _ _, EmptyString => None
  end.

Fixpoint demo_read_entries (fuel : nat) (s : string) (acc : Dict) : option Dict :=
  match fuel with
  | O => None
  | S fuel =>
      rest ← demo_expect (String dquote EmptyString) s;
      '(k, rest) ← demo_read_string rest EmptyString;
      rest ← demo_expect (": " +:+ String dquote EmptyString) rest;
      '(v, rest) ← demo_read_string rest EmptyString;
      let acc := <[KStr k := VStr v]> acc in
      if String.eqb rest "}" then Some acc
      else rest ← demo_expect ", " rest; demo_read_entries fuel rest acc
  end.

(** How many ["["] a text starts with. *)
Fixpoint leading_brackets (s : string) : nat :=
  match s with
  | String c rest =>
      if bool_decide (c = "["%char) then S (leading_brackets rest) else O
  | EmptyString => O
  end.

(** The decoder gives up on arrays nested deeper than the interpreter's
    recursion limit, with [RecursionError]. *)
Definition recursion_limit : nat := 1000.

Definition demo_json_load (s : string) : Result PyVal :=
  if Nat.leb recursion_limit (leading_brackets s) then Raise RecursionError
  else if String.eqb s "{}" then Ok (VDict ∅)
  else
    match demo_expect "{" s ≫= λ rest, demo_read_entries (String.length s) rest ∅ with
    | Some d => Ok (VDict d)
    | None => Raise (ValueError "Expecting value")
    end.

Definition demo_externals : Externals :=
  {| userPrefsDir := "/home/user/.psychopy3";
     PY3 := true;
     os_path_join := λ a b, a +:+ "/" +:+ b;
     json_load := demo_json_load;
     json_dumps := demo_json_dumps |}.

Definition demo_project (id : Z) (name : string) : Gitlab.Project :=
  let bundle : Dict :=
    <[KStr "id" := VInt id]>
      (<[KStr "name" := VStr name]>
         (<[KStr "namespace" := VDict {[ KStr "name" := VStr "lab" ]}]>
            (<[KStr "owner" := VDict {[ KStr "username" := VStr "alice" ]}]> ∅))) in
  {| Gitlab._attrs := bundle;
     Gitlab.attributes := bundle;
     Gitlab.dict_attributes := None |}.

Definition demo_server (own group : list Gitlab.Project) : Server :=
  {| get_user := λ token,
       if py_eqb token (VStr "tok123") then Ok {| Gitlab.username := "alice" |}
       else Raise GitlabAuthenticationError;
     get_project := λ token id,
       match id with
       | OVal (VInt 1) => Ok (demo_project 1 "Study1")
       | OVal (VInt 2) => Ok (demo_project 2 "Study2")
       | OVal (VInt 3) => Ok (demo_project 3 "Study3")
       | _ => Raise GitlabGetError
       end;
     list_projects := λ token opts,
       match Gitlab.owned opts with
       | Some true => Ok own
       | _ => Ok group
       end |}.

Definition anonymous_session : PavloviaSession :=
  {| username := VNone; password := VNone; userID := VNone;
     userFullName := VNone; remember_me := true; authenticated := false;
     currentProject := None; gitlab := None; token := Some VNone |}.

Definition logged_in_session : PavloviaSession :=
  {| username := VStr "alice"; password := VNone; userID := VNone;
     userFullName := VNone; remember_me := true; authenticated := false;
     currentProject := None;
     gitlab := Some {| Gitlab.url := rootURL; Gitlab.oauth_token := VStr "tok123";
                       Gitlab.user := Some {| Gitlab.username := "alice" |} |};
     token := Some (VStr "tok123") |}.

Definition world_of (srv : Server) (files : gmap string string)
    (session : PavloviaSession) : World :=
  {| files := files; dirs := ∅; server := srv; requests := [];
     stdout := []; currentSession := session |}.

Definition demo_world (files : gmap string string) (session : PavloviaSession)
  : World :=
  world_of (demo_server [demo_project 1 "Study1"; demo_project 2 "Study2"]
                        [demo_project 2 "Study2"; demo_project 3 "Study3"])
           files session.

(** ** Vocabulary of the properties *)

(** The file [load] and [save] use when no file name is given. *)
Definition token_path `{E : Externals} (filename : option string) : string :=
  match filename with
  | None => os_path_join userPrefsDir "pavlovia.json"
  | Some f => f
  end.

(** A store of tokens: user names and tokens are strings. *)
Definition token_store (m : gmap string string) : Dict :=
  kmap KStr (VStr <$> m).

(** A statement on a dictionary that only adds or replaces entries. *)
Definition keeps_keys (m : Py Dict unit) : Prop :=
  ∀ d, dom d ⊆ dom (m d).2.

(** The [id] the hosting service gave a project. *)
Definition raw_id (p : Gitlab.Project) : PyVal :=
  default VNone (Gitlab._attrs p !! KStr "id").

(** [PavloviaProject(p)] for a gitlab project [p]. *)
Definition wrap (p : Gitlab.Project) : PavloviaProject :=
  {| _proj := p; instance_dict := ∅ |}.

(** Deduplication by id, in the words of the specification: going through
    the list in order, an entry is kept when its id is set and equals no id
    kept before it ([seen]); the first occurrence wins. *)
Fixpoint dedup_by_id (seen : list PyVal) (l : list Gitlab.Project)
  : list Gitlab.Project :=
  match l with
  | [] => []
  | p :: rest =>
      if truthy (raw_id p) && negb (py_in (raw_id p) seen)
      then p :: dedup_by_id (seen ++ [raw_id p]) rest
      else dedup_by_id seen rest
  end.

(** No entry has the id of a later one. *)
Definition distinct_ids (l : list Gitlab.Project) : Prop :=
  ∀ i j p q, (i < j)%nat → l !! i = Some p → l !! j = Some q →
             py_eqb (raw_id p) (raw_id q) = false.

(** The directories there are once [save] has made sure of the preferences
    directory. *)
Definition dirs_after_makedirs `{E : Externals} (w : World) : gset string :=
  if bool_decide (userPrefsDir ∈ dirs w) then dirs w
  else {[userPrefsDir]} ∪ list_to_set (ancestors userPrefsDir) ∪ dirs w.

(** The preferences directory exists, or can be made: nothing has its name
    and no regular file stands where a directory above it is needed. *)
Definition can_make_prefs_dir `{E : Externals} (w : World) : Prop :=
  userPrefsDir ∈ dirs w ∨
  (files w !! userPrefsDir = None ∧
   Forall (λ a, files w !! a = None) (ancestors userPrefsDir)).

(** [path] can then be opened for writing: it is not a directory, and
    every directory above it exists. *)
Definition can_write `{E : Externals} (w : World) (path : string) : Prop :=
  (path ∉ dirs_after_makedirs w) ∧
  Forall (λ a, files w !! a = None ∧ a ∈ dirs_after_makedirs w) (ancestors path).

(** Printable strings: every character is between the space and the
    tilde. *)
Definition printable (s : string) : Prop :=
  Forall (λ c, (32 ≤ nat_of_ascii c)%nat ∧ (nat_of_ascii c ≤ 126)%nat)
         (list_ascii_of_string s).

Definition printable_tokens (m : gmap string string) : Prop :=
  map_Forall (λ user tok, printable user ∧ printable tok) m.

(** The environment with the JSON codec above, for any preferences
    directory, interpreter version and path join. *)
Definition codec_externals (prefs : string) (py3 : bool)
    (join : string → string → string) : Externals :=
  {| userPrefsDir := prefs; PY3 := py3; os_path_join := join;
     json_load := demo_json_load; json_dumps := demo_json_dumps |}.

(** A text of [n] opening brackets. *)
Definition nested_arrays (n : nat) : string :=
  Nat.iter n (String "["%char) EmptyString.

(** * Properties *)

(** ** The token store *)

Lemma keeps_keys_ret : keeps_keys (ret ()).
Proof. by intros d. Qed.

Lemma keeps_keys_raise e : keeps_keys (raise e).
Proof. by intros d. Qed.

Lemma keeps_keys_bind {A} (m : Py Dict A) (k : A → Py Dict unit) :
  (∀ d, dom d ⊆ dom (m d).2) →
  (∀ a, keeps_keys (k a)) →
  keeps_keys (bind m k).
Proof.
  intros Hm Hk d. unfold bind. specialize (Hm d).
  destruct (m d) as [[a|e] d']; simpl in *; [|done].
  specialize (Hk a d'). set_solver.
Qed.

Lemma keeps_keys_setitem k v : keeps_keys (dict_setitem k v).
Proof.
  intros d. unfold dict_setitem, bind, lift, modify.
  destruct (py_hash k); simpl; [|done].
  rewrite dom_insert. set_solver.
Qed.

Lemma keeps_keys_update_from_pairs items : keeps_keys (update_from_pairs items).
Proof.
  induction items as [|item rest IH]; simpl.
  - apply keeps_keys_ret.
  - apply keeps_keys_bind; [by intros d|]. intros kv.
    apply keeps_keys_bind; [apply keeps_keys_setitem|]. by intros _.
Qed.

Lemma keeps_keys_update other : keeps_keys (dict_update other).
Proof.
  destruct other as [| | |s|items|o]; simpl;
    try apply keeps_keys_raise.
  - destruct s; [apply keeps_keys_ret|apply keeps_keys_raise].
  - apply keeps_keys_update_from_pairs.
  - intros d. unfold modify. simpl. rewrite dom_union. set_solver.
Qed.

Lemma keeps_keys_except m : keeps_keys m → keeps_keys (except_ValueError_pass m).
Proof.
  intros Hm d. unfold except_ValueError_pass. specialize (Hm d).
  destruct (m d) as [[a|e] d']; simpl in *; [done|].
  by destruct (is_ValueError e).
Qed.

Lemma keeps_keys_load `{E : Externals} filename w :
  keeps_keys (PavloviaTokenStorage.load filename w).
Proof.
  unfold PavloviaTokenStorage.load.
  destruct (files w !! _); [|apply keeps_keys_ret].
  apply keeps_keys_except, keeps_keys_bind; [by intros d|].
  apply keeps_keys_update.
Qed.

(** [load] when the file is absent. *)
Lemma load_missing `{E : Externals} filename w (st : Dict) :
  files w !! token_path filename = None →
  PavloviaTokenStorage.load filename w st = (Ok (), st).
Proof.
  intros Hfile. unfold PavloviaTokenStorage.load.
  fold (token_path filename). by rewrite Hfile.
Qed.

(** [load] when the file does not hold valid JSON. *)
Lemma load_malformed `{E : Externals} filename w (st : Dict) content msg :
  files w !! token_path filename = Some content →
  json_load content = Raise (ValueError msg) →
  PavloviaTokenStorage.load filename w st = (Ok (), st).
Proof.
  intros Hfile Hjson. unfold PavloviaTokenStorage.load.
  fold (token_path filename). rewrite Hfile.
  unfold except_ValueError_pass, bind, lift. by rewrite Hjson.
Qed.

(** [load] when the file holds a JSON object. *)
Lemma load_object `{E : Externals} filename w (st : Dict) content tokens :
  files w !! token_path filename = Some content →
  json_load content = Ok (VDict tokens) →
  PavloviaTokenStorage.load filename w st = (Ok (), tokens ∪ st).
Proof.
  intros Hfile Hjson. unfold PavloviaTokenStorage.load.
  fold (token_path filename). rewrite Hfile.
  unfold except_ValueError_pass, bind, lift. by rewrite Hjson.
Qed.

Lemma load_decoder_raises `{E : Externals} filename w (st : Dict) content e :
  files w !! token_path filename = Some content →
  json_load content = Raise e →
  PavloviaTokenStorage.load filename w st
  = (if is_ValueError e then Ok () else Raise e, st).
Proof.
  intros Hfile Hjson. unfold PavloviaTokenStorage.load.
  fold (token_path filename). rewrite Hfile.
  unfold except_ValueError_pass, bind, lift. rewrite Hjson.
  by destruct (is_ValueError e).
Qed.

(** C8, as the code has it.  On a fresh (empty) token store, [load]
    returns normally and leaves the store empty when the token file does not
    exist, and when decoding its content raises [ValueError], which is what
    the decoder raises for text that is not JSON.  [ValueError] is the only
    exception [load] catches: any other one the decoder raises on the
    content comes out of [load], the store still empty.  The constructor
    does what [load] does with the default file name. *)
Theorem load_tolerates_missing_or_malformed `{E : Externals}
    (w : World) (filename : option string) :
  (files w !! token_path filename = None →
   PavloviaTokenStorage.load filename w ∅ = (Ok (), ∅)) ∧
  (∀ content e,
     files w !! token_path filename = Some content →
     json_load content = Raise e →
     PavloviaTokenStorage.load filename w ∅
     = (if is_ValueError e then Ok () else Raise e, ∅)) ∧
  PavloviaTokenStorage.__init__ ∅ w = PavloviaTokenStorage.load None w ∅.
Proof.
  split; [|split].
  - apply load_missing.
  - intros content e. apply load_decoder_raises.
  - reflexivity.
Qed.

Lemma load_tolerates_missing_or_malformed_witness :
  @PavloviaTokenStorage.load demo_externals None
     (demo_world {[ "/home/user/.psychopy3/pavlovia.json" := "not json" ]}
                 anonymous_session) ∅ = (Ok (), ∅).
Proof.
  destruct (@load_tolerates_missing_or_malformed demo_externals
              (demo_world {[ "/home/user/.psychopy3/pavlovia.json" := "not json" ]}
                          anonymous_session) None) as (_ & Hraises & _).
  apply (Hraises "not json" (ValueError "Expecting value")); vm_compute; reflexivity.
Defined.

(** The claim C8 says that [load] does not raise on any content that is
    not valid JSON.  A thousand opening brackets are not valid JSON; the
    decoder raises [RecursionError] on them, and so does [load]. *)
Lemma load_counterexample :
  @PavloviaTokenStorage.load demo_externals None
     (demo_world {[ "/home/user/.psychopy3/pavlovia.json" := nested_arrays 1000 ]}
                 anonymous_session) ∅ = (Raise RecursionError, ∅).
Proof. vm_compute. reflexivity. Qed.

(** C10. [load] never removes a key from a store that already holds
    entries, whatever the file is.  When the file is absent or is not valid
    JSON the store is unchanged; when it holds a JSON object, every key the
    object does not have keeps its entry and every key it has gets the
    file's value, also where the store had another one. *)
Theorem load_keeps_entries_file_wins `{E : Externals}
    (w : World) (filename : option string) (st : Dict) :
  let st' := (PavloviaTokenStorage.load filename w st).2 in
  (∀ k, is_Some (st !! k) → is_Some (st' !! k)) ∧
  (files w !! token_path filename = None → st' = st) ∧
  (∀ content msg,
     files w !! token_path filename = Some content →
     json_load content = Raise (ValueError msg) → st' = st) ∧
  (∀ content tokens,
     files w !! token_path filename = Some content →
     json_load content = Ok (VDict tokens) →
     (PavloviaTokenStorage.load filename w st).1 = Ok () ∧
     ∀ k, (tokens !! k = None → st' !! k = st !! k) ∧
          (∀ v, tokens !! k = Some v → st' !! k = Some v)).
Proof.
  intros st'. subst st'. repeat split.
  - intros k Hk. apply elem_of_dom. apply (keeps_keys_load filename w st).
    by apply elem_of_dom.
  - intros Hfile. by rewrite load_missing.
  - intros content msg Hfile Hjson. by erewrite load_malformed.
  - by erewrite load_object.
  - intros Hk. erewrite load_object by done. simpl.
    by apply lookup_union_r.
  - intros v Hk. erewrite load_object by done. simpl.
    by apply lookup_union_Some_l.
Qed.

Lemma load_keeps_entries_file_wins_witness :
  let file : gmap string string :=
    {[ "/home/user/.psychopy3/pavlovia.json" := demo_json_dumps
         (VDict (token_store {[ "alice" := "new"; "carol" := "c" ]})) ]} in
  let st := token_store {[ "alice" := "old"; "bob" := "b" ]} in
  let st' := (@PavloviaTokenStorage.load demo_externals None
                (demo_world file anonymous_session) st).2 in
  st' !! KStr "bob" = Some (VStr "b") ∧ st' !! KStr "alice" = Some (VStr "new").
Proof.
  intros file st st'.
  pose proof (@load_keeps_entries_file_wins demo_externals
                (demo_world file anonymous_session) None st)
    as (_ & _ & _ & Hobj).
  destruct (Hobj (demo_json_dumps
                    (VDict (token_store {[ "alice" := "new"; "carol" := "c" ]})))
                 (token_store {[ "alice" := "new"; "carol" := "c" ]}))
    as [_ Hk]; [vm_compute; reflexivity | vm_compute; reflexivity |].
  split.
  - destruct (Hk (KStr "bob")) as [-> _]; vm_compute; reflexivity.
  - destruct (Hk (KStr "alice")) as [_ Hin]. apply Hin. vm_compute; reflexivity.
Defined.

(** ** Strings and the codec *)

Lemma append_cons (c : ascii) (s t : string) :
  String c s +:+ t = String c (s +:+ t).
Proof. reflexivity. Qed.

Lemma append_nil_l (s : string) : "" +:+ s = s.
Proof. reflexivity. Qed.

Lemma append_nil_r (s : string) : s +:+ "" = s.
Proof. induction s as [|c s IH]; [done|]. by rewrite append_cons, IH. Qed.

Lemma append_assoc (a b c : string) : (a +:+ b) +:+ c = a +:+ (b +:+ c).
Proof. induction a as [|x a IH]; [done|]. by rewrite !append_cons, IH. Qed.

Lemma length_append (a b : string) :
  String.length (a +:+ b) = (String.length a + String.length b)%nat.
Proof. induction a as [|x a IH]; [done|]. rewrite append_cons. simpl. by rewrite IH. Qed.

Lemma demo_expect_append (p s : string) : demo_expect p (p +:+ s) = Some s.
Proof.
  induction p as [|c p IH]; [done|]. rewrite append_cons. simpl.
  by rewrite bool_decide_eq_true_2.
Qed.

Lemma demo_read_string_escape (s acc rest : string) :
  demo_read_string (demo_escape s +:+ String dquote rest) acc
  = Some (acc +:+ s, rest).
Proof.
  revert acc. induction s as [|c s IH]; intros acc.
  - simpl. by rewrite append_nil_r.
  - assert (acc +:+ String c s = (acc +:+ String c "") +:+ s) as ->.
    { by rewrite append_assoc. }
    cbn [demo_escape].
    destruct (decide (c = dquote)) as [->|Hq].
    + simpl. by rewrite IH.
    + rewrite (bool_decide_eq_false_2 (c = dquote)) by done. cbn [orb].
      destruct (decide (c = backslash)) as [->|Hb].
      * simpl. by rewrite IH.
      * rewrite (bool_decide_eq_false_2 (c = backslash)) by done.
        rewrite append_cons. cbn [demo_read_string].
        rewrite (bool_decide_eq_false_2 (c = dquote)) by done.
        rewrite (bool_decide_eq_false_2 (c = backslash)) by done.
        by rewrite IH.
Qed.

Lemma demo_read_entries_step (fuel : nat) (k v tail : string) (acc : Dict) :
  demo_read_entries (S fuel)
    ((demo_quote k +:+ ": " +:+ demo_quote v) +:+ tail) acc =
  if String.eqb tail "}" then Some (<[KStr k := VStr v]> acc)
  else demo_expect ", " tail ≫=
         λ rest, demo_read_entries fuel rest (<[KStr k := VStr v]> acc).
Proof.
  assert ((demo_quote k +:+ ": " +:+ demo_quote v) +:+ tail =
          String dquote (demo_escape k +:+ String dquote
            (": " +:+ String dquote (demo_escape v +:+ String dquote tail))))
    as ->.
  { unfold demo_quote.
    by repeat (rewrite append_cons || rewrite append_assoc
               || rewrite append_nil_l). }
  cbn [demo_read_entries]. simpl.
  rewrite demo_read_string_escape. simpl.
  rewrite demo_read_string_escape. simpl.
  done.
Qed.

Lemma foldl_insert_lookup (l : list (PyKey * PyVal)) (acc : Dict) (i : PyKey) :
  NoDup l.*1 →
  foldl (λ d kv, <[kv.1 := kv.2]> d) acc l !! i =
  match (list_to_map l : Dict) !! i with
  | Some x => Some x
  | None => acc !! i
  end.
Proof.
  revert acc. induction l as [|[k v] l IH]; intros acc Hnodup; simpl; [done|].
  simpl in Hnodup. apply list.NoDup_cons in Hnodup as [Hk Hnodup].
  rewrite IH by done.
  destruct (decide (i = k)) as [->|Hne].
  - rewrite (not_elem_of_list_to_map_1 _ _ Hk). by rewrite !lookup_insert_eq.
  - by rewrite !lookup_insert_ne.
Qed.

Lemma concat_cons (sep x : string) (l : list string) :
  l ≠ [] → String.concat sep (x :: l) = x +:+ sep +:+ String.concat sep l.
Proof. by destruct l. Qed.

Lemma demo_read_entries_all (l : list (PyKey * PyVal)) (fuel : nat) (acc : Dict) :
  l ≠ [] →
  Forall (λ kv, ∃ k v, kv = (KStr k, VStr v)) l →
  (length l ≤ fuel)%nat →
  demo_read_entries fuel
    (String.concat ", "
       ((λ kv : PyKey * PyVal, demo_dumps_key kv.1 +:+ ": " +:+ demo_dumps_val kv.2)
          <$> l) +:+ "}") acc
  = Some (foldl (λ d kv, <[kv.1 := kv.2]> d) acc l).
Proof.
  revert fuel acc. induction l as [|kv l IH]; intros fuel acc Hne Hall Hfuel;
    [done|].
  destruct fuel as [|fuel]; [simpl in Hfuel; lia|].
  apply Forall_cons_1 in Hall as [(k & v & ->) Hall].
  rewrite fmap_cons. cbn [fst snd demo_dumps_key demo_dumps_val].
  destruct (decide (l = [])) as [->|Hl].
  - cbn [fmap list_fmap String.concat].
    rewrite demo_read_entries_step. done.
  - rewrite concat_cons by (by destruct l).
    rewrite !append_assoc, <-(append_assoc (demo_quote k)).
    rewrite <-(append_assoc (demo_quote k +:+ ": ")).
    rewrite (append_assoc (demo_quote k)).
    rewrite demo_read_entries_step.
    change (String.eqb (", " +:+ ?x) "}") with false.
    cbn iota. rewrite demo_expect_append. cbn [mbind option_bind].
    rewrite IH; [done|done|done|simpl in *; lia].
Qed.

Lemma concat_length (sep : string) (xs : list string) :
  Forall (λ x, (1 ≤ String.length x)%nat) xs →
  (length xs ≤ String.length (String.concat sep xs))%nat.
Proof.
  induction xs as [|x xs IH]; intros Hxs; [done|].
  apply Forall_cons_1 in Hxs as [Hx Hxs].
  destruct (decide (xs = [])) as [->|Hne]; [exact Hx|].
  rewrite concat_cons by done. rewrite !length_append. simpl.
  specialize (IH Hxs). lia.
Qed.

Lemma token_store_entries (m : gmap string string) :
  Forall (λ kv, ∃ k v, kv = (KStr k, VStr v)) (map_to_list (token_store m)).
Proof.
  apply list.Forall_forall. intros [key val] Hin.
  apply elem_of_map_to_list in Hin. unfold token_store in Hin.
  apply lookup_kmap_Some in Hin as (k & -> & Hk); [|apply _].
  apply lookup_fmap_Some in Hk as (v & <- & _). by exists k, v.
Qed.

(** The codec gives back every store of string tokens it has written. *)
Lemma demo_json_roundtrip (m : gmap string string) :
  demo_json_load (demo_json_dumps (VDict (token_store m)))
  = Ok (VDict (token_store m)).
Proof.
  unfold demo_json_dumps.
  pose proof (token_store_entries m) as Hentries.
  pose proof (NoDup_fst_map_to_list (token_store m)) as Hnodup.
  pose proof (list_to_map_to_list (token_store m)) as Hmap.
  destruct (map_to_list (token_store m)) as [|kv l] eqn:Hl.
  - simpl in Hmap. by rewrite <-Hmap.
  - pose proof Hentries as Hentries'.
    apply Forall_cons_1 in Hentries' as [(k & v & ->) _].
    set (entries := String.concat ", " _).
    assert (∃ rest, entries = String dquote rest) as [rest Hrest].
    { subst entries. rewrite fmap_cons.
      destruct (decide (l = [])) as [->|Hne]; [by eexists|].
      rewrite concat_cons by (by destruct l). by eexists. }
    assert (length ((KStr k, VStr v) :: l) ≤ String.length entries)%nat as Hlen.
    { subst entries. etrans; [|apply concat_length].
      - by rewrite length_fmap.
      - apply Forall_fmap, list.Forall_forall. intros [key val] _. simpl.
        unfold demo_dumps_key. destruct key; simpl; lia. }
    unfold demo_json_load.
    rewrite append_cons, append_nil_l.
    cbn [leading_brackets]. rewrite bool_decide_eq_false_2 by done.
    cbn [Nat.leb recursion_limit].
    replace (String.eqb (String "{" (entries +:+ "}")) "{}") with false
      by (rewrite Hrest; reflexivity).
    cbn [demo_expect]. rewrite bool_decide_eq_true_2 by done.
    cbn [mbind option_bind demo_expect].
    subst entries.
    rewrite demo_read_entries_all; [|done|done|].
    + f_equal. f_equal. apply map_eq. intros i.
      rewrite foldl_insert_lookup by done. rewrite Hmap, lookup_empty.
      by destruct (token_store m !! i).
    + cbn [String.length]. rewrite length_append. lia.
Qed.

(** ** The file system *)



Lemma Forall_no_file (fs : gmap string string) (l : list string) :
  Forall (λ a, fs !! a = None) l → ¬ Exists (λ a, is_Some (fs !! a)) l.
Proof.
  intros Hall (a & Ha & [x Hx])%list.Exists_exists.
  rewrite list.Forall_forall in Hall. by rewrite (Hall a Ha) in Hx.
Qed.

Lemma Forall_no_missing (ds : gset string) (l : list string) :
  Forall (λ a, a ∈ ds) l → ¬ Exists (λ a, a ∉ ds) l.
Proof.
  intros Hall (a & Ha & Hx)%list.Exists_exists.
  rewrite list.Forall_forall in Hall. by apply Hx, Hall.
Qed.


(** [save] returns when the preferences directory is there or can be made
    and the file can be opened for writing; the file then holds the
    serialised store. *)
Lemma save_returns `{E : Externals} (st : Dict) (filename : option string)
    (w : World) :
  can_make_prefs_dir w →
  can_write w (token_path filename) →
  ∃ w', PavloviaTokenStorage.save st filename w = (Ok (), w') ∧
        files w' = <[token_path filename := json_dumps (VDict st)]> (files w) ∧
        dirs w' = dirs_after_makedirs w ∧
        server w' = server w ∧ requests w' = requests w ∧
        stdout w' = stdout w ∧ currentSession w' = currentSession w.
Proof.
  intros Hmake [Hpath Habove].
  apply list.Forall_and in Habove as [Hnofile Hdirs].
  apply Forall_no_file in Hnofile. apply Forall_no_missing in Hdirs.
  unfold PavloviaTokenStorage.save. fold (token_path filename).
  generalize dependent (token_path filename). intros path Hpath Hnofile Hdirs.
  unfold dirs_after_makedirs in *.
  unfold bind, get, os_makedirs, open_wb, write, bytes_utf8, bind, get, modify,
    raise, ret.
  destruct (bool_decide (userPrefsDir ∈ dirs w)) eqn:Hin; cbn beta iota.
  - rewrite (bool_decide_eq_false_2 (path ∈ dirs w)) by done.
    rewrite (bool_decide_eq_false_2 (Exists _ (ancestors path))) by done.
    rewrite (bool_decide_eq_false_2 (Exists _ (ancestors path))) by done.
    eexists. split; [by destruct PY3|]. simpl.
    by rewrite insert_insert_eq.
  - apply bool_decide_eq_false in Hin.
    destruct Hmake as [?|[Hnoprefs Hnoabove]]; [done|].
    apply Forall_no_file in Hnoabove.
    rewrite (bool_decide_eq_false_2 (userPrefsDir ∈ dirs w)) by done.
    rewrite (bool_decide_eq_false_2 (is_Some (files w !! userPrefsDir)))
      by (rewrite Hnoprefs; by intros [? ?]).
    cbn beta iota.
    rewrite (bool_decide_eq_false_2 (Exists _ (ancestors userPrefsDir))) by done.
    simpl.
    rewrite (bool_decide_eq_false_2 (path ∈ _)) by done.
    rewrite (bool_decide_eq_false_2 (Exists _ (ancestors path))) by done.
    rewrite (bool_decide_eq_false_2 (Exists _ (ancestors path))) by done.
    eexists. split; [by destruct PY3|]. simpl.
    by rewrite insert_insert_eq.
Qed.

(** The round trip through the file, for any codec that gives the saved
    store back. *)
Lemma save_load_roundtrip_with `{E : Externals} (w : World) (st : Dict) :
  can_make_prefs_dir w →
  can_write w (token_path None) →
  json_load (json_dumps (VDict st)) = Ok (VDict st) →
  ∃ w', PavloviaTokenStorage.save st None w = (Ok (), w') ∧
        PavloviaTokenStorage.load None w' ∅ = (Ok (), st) ∧
        PavloviaTokenStorage.__init__ ∅ w' = (Ok (), st) ∧
        PavloviaTokenStorage.load None w' st = (Ok (), st).
Proof.
  intros Hmake Hwrite Hjson.
  destruct (save_returns st None w Hmake Hwrite) as (w' & Hsave & Hfiles & _).
  exists w'. split; [done|].
  assert (files w' !! token_path None = Some (json_dumps (VDict st))) as Hfile.
  { by rewrite Hfiles, lookup_insert_eq. }
  unfold PavloviaTokenStorage.__init__.
  rewrite !(load_object None w' _ _ _ Hfile Hjson).
  by rewrite (right_id_L ∅ (∪)), (idemp_L (∪)).
Qed.

(** C9. Saving a store of printable user names and tokens and then loading
    a fresh store from the same location gives the saved mapping back:
    whenever the preferences directory is there or can be made and the token
    file can be opened for writing, [save] returns, and both [load] on an
    empty store and the constructor then yield exactly the saved entries,
    which a further [load] on the constructed store leaves as they are.  The
    codec is the one defined above, which writes and reads objects of
    strings as [json] does. *)
Theorem save_load_roundtrip (prefs : string) (py3 : bool)
    (join : string → string → string) (w : World) (m : gmap string string) :
  printable_tokens m →
  @can_make_prefs_dir (codec_externals prefs py3 join) w →
  @can_write (codec_externals prefs py3 join) w
    (@token_path (codec_externals prefs py3 join) None) →
  ∃ w',
    @PavloviaTokenStorage.save (codec_externals prefs py3 join)
      (token_store m) None w = (Ok (), w') ∧
    @PavloviaTokenStorage.load (codec_externals prefs py3 join) None w' ∅
      = (Ok (), token_store m) ∧
    @PavloviaTokenStorage.__init__ (codec_externals prefs py3 join) ∅ w'
      = (Ok (), token_store m) ∧
    @PavloviaTokenStorage.load (codec_externals prefs py3 join) None w'
      (token_store m) = (Ok (), token_store m).
Proof.
  intros _ Hmake Hwrite.
  apply (@save_load_roundtrip_with (codec_externals prefs py3 join)); [done..|].
  apply demo_json_roundtrip.
Qed.

Lemma save_load_roundtrip_witness :
  ∃ w', @PavloviaTokenStorage.save demo_externals
          (token_store {[ "alice" := "tok123"; "bob" := "x\y" ]}) None
          (demo_world ∅ anonymous_session) = (Ok (), w') ∧
        @PavloviaTokenStorage.load demo_externals None w' ∅
          = (Ok (), token_store {[ "alice" := "tok123"; "bob" := "x\y" ]}) ∧
        @PavloviaTokenStorage.__init__ demo_externals ∅ w'
          = (Ok (), token_store {[ "alice" := "tok123"; "bob" := "x\y" ]}) ∧
        @PavloviaTokenStorage.load demo_externals None w'
          (token_store {[ "alice" := "tok123"; "bob" := "x\y" ]})
          = (Ok (), token_store {[ "alice" := "tok123"; "bob" := "x\y" ]}).
Proof.
  apply (save_load_roundtrip "/home/user/.psychopy3" true
           (λ a b, a +:+ "/" +:+ b) (demo_world ∅ anonymous_session)
           {[ "alice" := "tok123"; "bob" := "x\y" ]}).
  - unfold printable_tokens, printable. compute_done.
  - right. split; [reflexivity|]. compute_done.
  - unfold can_write. compute_done.
Defined.

(** ** Projects *)

(** C3. The [owner] property returns [namespace.name] also when the
    attribute bundle has an [owner] field with a [username]: the statements
    that would prefer [owner.username] come after the [return] and are never
    reached. *)
Theorem owner_is_namespace_name (self : PavloviaProject)
    (owner_field namespace_field : Dict) (u n : PyVal) :
  PavloviaProject.attributes self !! KStr "owner" = Some (VDict owner_field) →
  owner_field !! KStr "username" = Some u →
  PavloviaProject.attributes self !! KStr "namespace" = Some (VDict namespace_field) →
  namespace_field !! KStr "name" = Some n →
  PavloviaProject.owner self = Ok n.
Proof.
  unfold PavloviaProject.attributes, PavloviaProject.owner, return_then,
    PavloviaProject.subscript2, getitem_str.
  intros _ _ -> ->. reflexivity.
Qed.

Lemma owner_is_namespace_name_witness :
  PavloviaProject.owner
    {| _proj := demo_project 1 "Study1"; instance_dict := ∅ |} = Ok (VStr "lab").
Proof.
  apply (owner_is_namespace_name
           {| _proj := demo_project 1 "Study1"; instance_dict := ∅ |}
           {[ KStr "username" := VStr "alice" ]}
           {[ KStr "name" := VStr "lab" ]} (VStr "alice") (VStr "lab"));
    vm_compute; reflexivity.
Defined.

Lemma search_app l1 l2 name :
  PavloviaProject.search (l1 ++ l2) name =
  match PavloviaProject.search l1 name with
  | Some v => Some v
  | None => PavloviaProject.search l2 name
  end.
Proof.
  induction l1 as [|d l1 IH]; simpl; [done|].
  by destruct (d !! KStr name).
Qed.

(** C5. For a name other than ['owner'], [__getattr__] returns the first
    match among the instance dictionary, the fetched bundle and, when the
    gitlab object has one, its [attributes] entry; when none has the name it
    raises [AttributeError] with the message
    [No attribute '<name>' in PavloviaProject]: the message names the field,
    and never the project or its id, since [__repr__] is a constant. *)
Theorem getattr_search_order_and_error (self : PavloviaProject) (name : string) :
  name ≠ "owner" →
  PavloviaProject.__getattr__ self name =
    match PavloviaProject.__dict__ self !! KStr name with
    | Some v => Ok v
    | None =>
        match Gitlab._attrs (_proj self) !! KStr name with
        | Some v => Ok (PavloviaProject.AVal v)
        | None =>
            match Gitlab.dict_attributes (_proj self) ≫= (.!! KStr name) with
            | Some v => Ok (PavloviaProject.AVal v)
            | None =>
                Raise (AttributeError
                         ("No attribute '" +:+ name +:+ "' in PavloviaProject"))
            end
        end
    end.
Proof.
  intros Hname. unfold PavloviaProject.__getattr__.
  rewrite (proj2 (String.eqb_neq name "owner") Hname).
  unfold PavloviaProject.toSearch. rewrite search_app. simpl.
  destruct (PavloviaProject.__dict__ self !! KStr name); [done|].
  rewrite lookup_fmap.
  destruct (Gitlab._attrs (_proj self) !! KStr name); simpl; [done|].
  destruct (Gitlab.dict_attributes (_proj self)) as [attributes|]; simpl.
  - rewrite lookup_fmap. destruct (attributes !! KStr name); simpl; [done|].
    by destruct (String.eqb name "id").
  - by destruct (String.eqb name "id").
Qed.

Lemma getattr_search_order_and_error_witness :
  PavloviaProject.id {| _proj := demo_project 7 "Study7"; instance_dict := ∅ |}
    = VInt 7 ∧
  PavloviaProject.__getattr__
    {| _proj := demo_project 7 "Study7"; instance_dict := ∅ |} "titel"
    = Raise (AttributeError "No attribute 'titel' in PavloviaProject").
Proof.
  split; [vm_compute; reflexivity|].
  rewrite (getattr_search_order_and_error
             {| _proj := demo_project 7 "Study7"; instance_dict := ∅ |} "titel").
  - vm_compute. reflexivity.
  - intros H. inversion H.
Defined.

(** ** Sessions *)

(** C2. [openProject] raises [TypeError] for every session and every id:
    it calls the constructor with the keywords [session] and [id], and
    [__init__(self, proj)] has neither.  No project is built, the session's
    current project is not set and nothing is sent or printed. *)
Theorem openProject_raises_TypeError
    (self : PavloviaSession) (w : World) (projID : PyObj) :
  PavloviaSession.openProject projID (self, w) =
    (Raise (TypeError "__init__() got an unexpected keyword argument 'session'"),
     (self, w)).
Proof. reflexivity. Qed.

(** C6. [createProject] and [applyChanges] never return normally, for any
    session and arguments; what they raise is [TypeError], not
    [NotImplementedError]: the operand of their [raise] is the constant
    [NotImplemented], which is not an exception. *)
Theorem unimplemented_operations_raise_TypeError
    (self : PavloviaSession) (w : World)
    (title descr tags public category : PyVal) :
  PavloviaSession.createProject title descr tags public category (self, w) =
    (Raise (TypeError "exceptions must derive from BaseException"), (self, w)) ∧
  PavloviaSession.applyChanges (self, w) =
    (Raise (TypeError "exceptions must derive from BaseException"), (self, w)) ∧
  is_NotImplementedError (raise_stmt NotImplemented) = false.
Proof. done. Qed.

(** C7, as the code has it.  A falsy id gives [None], with nothing sent,
    printed or changed.  A gitlab project object is wrapped as it is.  Any
    other non-falsy id is printed and then looked up through the connection
    of the module's [currentSession]: without a connection this raises
    [AttributeError]; with one, the request is sent and its answer decides,
    a project wrapping the answer or the service's error. *)
Theorem projectFromID_cases
    (self : PavloviaSession) (w : World) (id : PyObj) :
  (obj_truthy id = false →
     PavloviaSession.projectFromID id (self, w) = (Ok None, (self, w))) ∧
  (∀ p, id = OProject p →
     PavloviaSession.projectFromID id (self, w) =
       (Ok (Some {| _proj := p; instance_dict := ∅ |}), (self, w))) ∧
  (obj_truthy id = true → (∀ p, id ≠ OProject p) →
     let printed := (print id w).2 in
     match gitlab (currentSession w) with
     | None =>
         PavloviaSession.projectFromID id (self, w) =
           (Raise (AttributeError "'NoneType' object has no attribute 'projects'"),
            (self, printed))
     | Some g =>
         PavloviaSession.projectFromID id (self, w) =
           (match get_project (server w) (Gitlab.oauth_token g) id with
            | Ok p => Ok (Some {| _proj := p; instance_dict := ∅ |})
            | Raise e => Raise e
            end,
            (self, send (GetProject (Gitlab.oauth_token g) id) printed))
     end).
Proof.
  unfold PavloviaSession.projectFromID. split; [|split].
  - by intros ->.
  - by intros p ->.
  - intros -> Hnot. simpl.
    assert (∀ (k : Py World PavloviaProject),
              (match id with OProject p => ret {| _proj := p; instance_dict := ∅ |}
                             | _ => k end) = k) as Hk.
    { intros k. destruct id; try done. by destruct (Hnot p). }
    unfold bind, on_snd, PavloviaProject.new, PavloviaProject.bind_arguments,
      PavloviaProject.__init__, bind, lift. simpl.
    rewrite Hk. unfold bind, get, Gitlab_projects_get. simpl.
    destruct (gitlab (currentSession w)) as [g|]; simpl; [|done].
    unfold bind, modify, get, lift, ret. simpl.
    by destruct (get_project (server w) (Gitlab.oauth_token g) id).
Qed.

Lemma projectFromID_cases_witness :
  PavloviaSession.projectFromID (OVal (VStr ""))
     (anonymous_session, demo_world ∅ logged_in_session)
    = (Ok None, (anonymous_session, demo_world ∅ logged_in_session)) ∧
  PavloviaSession.projectFromID (OVal VNone)
     (anonymous_session, demo_world ∅ logged_in_session)
    = (Ok None, (anonymous_session, demo_world ∅ logged_in_session)) ∧
  (PavloviaSession.projectFromID (OVal (VInt 2))
     (anonymous_session, demo_world ∅ logged_in_session)).1
    = Ok (Some {| _proj := demo_project 2 "Study2"; instance_dict := ∅ |}).
Proof.
  split; [|split].
  - apply (projectFromID_cases anonymous_session
             (demo_world ∅ logged_in_session) (OVal (VStr ""))). reflexivity.
  - apply (projectFromID_cases anonymous_session
             (demo_world ∅ logged_in_session) (OVal VNone)). reflexivity.
  - pose proof (projectFromID_cases anonymous_session
                  (demo_world ∅ logged_in_session) (OVal (VInt 2)))
      as (_ & _ & Hremote).
    simpl in Hremote. rewrite Hremote; [reflexivity|reflexivity|].
    intros p H. inversion H.
Defined.

(** The claim C7 says that every non-falsy id gives a project.  On the
    module's initial, anonymous [currentSession] the id [5] raises
    [AttributeError]; on a logged-in one it raises the service's
    [GitlabGetError], the service having no such project. *)
Lemma projectFromID_counterexample :
  truthy (VInt 5) = true ∧
  (PavloviaSession.projectFromID (OVal (VInt 5))
     (anonymous_session, demo_world ∅ anonymous_session)).1
    = Raise (AttributeError "'NoneType' object has no attribute 'projects'") ∧
  (PavloviaSession.projectFromID (OVal (VInt 5))
     (logged_in_session, demo_world ∅ logged_in_session)).1
    = Raise GitlabGetError.
Proof. repeat split. Qed.

Lemma setToken_authenticated `{E : Externals} (tok : PyVal)
    (self : PavloviaSession) (w : World) :
  authenticated (PavloviaSession.setToken tok (self, w)).2.1 = authenticated self.
Proof.
  unfold PavloviaSession.setToken.
  unfold bind, on_fst, on_snd, modify, get, lift, ret, Gitlab_auth, Gitlab_new,
    Gitlab_user_username, bind, modify, get, lift, ret. simpl.
  destruct (truthy tok); simpl; [|done].
  destruct (get_user (server w) tok) as [u|e]; simpl; [|done].
  destruct (remember_me self); simpl; [|done].
  unfold PavloviaTokenStorage.new, on_local, dict_setitem, bind, lift, modify.
  simpl. repeat case_match; simplify_eq; done.
Qed.

Lemma setToken_success `{E : Externals} (tok : PyVal)
    (self self' : PavloviaSession) (w w' : World) :
  truthy tok = true →
  PavloviaSession.setToken tok (self, w) = (Ok (), (self', w')) →
  ∃ u, get_user (server w) tok = Ok u ∧
       gitlab self' = Some {| Gitlab.url := rootURL; Gitlab.oauth_token := tok;
                              Gitlab.user := Some u |} ∧
       username self' = VStr (Gitlab.username u).
Proof.
  intros Htruthy. unfold PavloviaSession.setToken. rewrite Htruthy.
  unfold bind, on_fst, on_snd, modify, get, lift, ret, Gitlab_auth, Gitlab_new,
    Gitlab_user_username, bind, modify, get, lift, ret. simpl.
  destruct (get_user (server w) tok) as [u|e] eqn:Hu; simpl; [|done].
  destruct (remember_me self); simpl.
  - unfold PavloviaTokenStorage.new, on_local, dict_setitem, bind, lift, modify.
    simpl. repeat case_match; simplify_eq; intros; simplify_eq; eauto 10.
  - intros [= <- <-]. eauto 10.
Qed.

(** C1, as the code has it.  [setToken] never changes [authenticated],
    whether it returns or raises, and the constructor sets it to false: the
    flag is false on every session the constructor returns.  A [setToken]
    that returns normally on a non-falsy token leaves the session with a
    connection handle that carries the authenticated user, and with that
    user's name; a falsy token only records the token. *)
Theorem authenticated_is_never_set `{E : Externals} (tok : PyVal)
    (self : PavloviaSession) (w : World) :
  let out := PavloviaSession.setToken tok (self, w) in
  authenticated out.2.1 = authenticated self ∧
  (truthy tok = true → out.1 = Ok () →
     ∃ u, get_user (server w) tok = Ok u ∧
          gitlab out.2.1 =
            Some {| Gitlab.url := rootURL; Gitlab.oauth_token := tok;
                    Gitlab.user := Some u |} ∧
          username out.2.1 = VStr (Gitlab.username u)) ∧
  (truthy tok = false → out = (Ok (), (set_token tok self, w))) ∧
  (∀ remember s w',
     PavloviaSession.__init__ tok remember w = (Ok s, w') →
     authenticated s = false).
Proof.
  intros out. split; [apply setToken_authenticated|]. split; [|split].
  - intros Htruthy Hok. subst out.
    destruct (PavloviaSession.setToken tok (self, w)) as [r [self' w']] eqn:Hset.
    simpl in *. subst r. by eapply setToken_success.
  - intros Hfalsy. subst out. unfold PavloviaSession.setToken.
    by rewrite Hfalsy.
  - intros remember s w'. unfold PavloviaSession.__init__.
    match goal with
    | |- context [PavloviaSession.setToken tok (?s0, w)] =>
        pose proof (setToken_authenticated tok s0 w) as Hauth;
        destruct (PavloviaSession.setToken tok (s0, w)) as [[[]|e] [s1 w1]]
    end; simpl in *; [|done].
    by intros [= <- <-].
Qed.

Lemma authenticated_is_never_set_witness :
  ∃ u, gitlab (@PavloviaSession.setToken demo_externals (VStr "tok123")
                 (anonymous_session, demo_world ∅ anonymous_session)).2.1 =
         Some {| Gitlab.url := rootURL; Gitlab.oauth_token := VStr "tok123";
                 Gitlab.user := Some u |} ∧
       Gitlab.username u = "alice".
Proof.
  destruct (@authenticated_is_never_set demo_externals (VStr "tok123")
              anonymous_session (demo_world ∅ anonymous_session))
    as (_ & Hsuccess & _).
  destruct Hsuccess as (u & Hu & Hg & _);
    [vm_compute; reflexivity | vm_compute; reflexivity |].
  exists u. split; [exact Hg|].
  vm_compute in Hu. by injection Hu as <-.
Defined.

(** The claim C1 makes [authenticated] true once a token exchange has
    succeeded and the session holds a connection handle.  Logging in with a
    token the service accepts succeeds and gives the session its handle,
    and [authenticated] is still false. *)
Lemma authenticated_counterexample :
  let out := @PavloviaSession.setToken demo_externals (VStr "tok123")
               (anonymous_session, demo_world ∅ anonymous_session) in
  truthy (VStr "tok123") = true ∧
  out.1 = Ok () ∧
  is_Some (gitlab out.2.1) ∧
  authenticated out.2.1 ≠ true.
Proof.
  vm_compute. repeat split; [by eexists|discriminate].
Qed.

(** *** Merging the projects of a user *)

Lemma py_in_app x l1 l2 : py_in x (l1 ++ l2) = py_in x l1 || py_in x l2.
Proof. apply existsb_app. Qed.

Lemma findUserProjects_loop_refines (todo acc : list Gitlab.Project) (w : World) :
  Forall (λ p, is_Some (Gitlab._attrs p !! KStr "id")) todo →
  PavloviaSession.findUserProjects_loop todo (wrap <$> acc) (raw_id <$> acc) w =
    (Ok (wrap <$> (acc ++ dedup_by_id (raw_id <$> acc) todo)), w).
Proof.
  revert acc. induction todo as [|p rest IH]; intros acc Hids; simpl.
  - by rewrite (right_id_L [] (++)).
  - apply Forall_cons_1 in Hids as [[id Hid] Hrest].
    unfold bind at 1, lift, Gitlab.getattr. rewrite Hid.
    assert (raw_id p = id) as Hraw by (unfold raw_id; by rewrite Hid).
    rewrite Hraw.
    destruct (truthy id && negb (py_in id (raw_id <$> acc))); [|by apply IH].
    unfold bind, PavloviaProject.new, lift, PavloviaProject.bind_arguments. simpl.
    specialize (IH (acc ++ [p]) Hrest).
    rewrite !fmap_app in IH. simpl in IH. rewrite Hraw in IH.
    fold (wrap p). rewrite IH.
    by rewrite fmap_app, <-(assoc_L (++)).
Qed.

Lemma dedup_by_id_sublist seen l : sublist (dedup_by_id seen l) l.
Proof.
  revert seen. induction l as [|p rest IH]; intros seen; simpl; [done|].
  destruct (_ && _); [by apply sublist_skip|by apply sublist_cons].
Qed.

Lemma dedup_by_id_unseen seen l p :
  p ∈ dedup_by_id seen l →
  truthy (raw_id p) = true ∧ py_in (raw_id p) seen = false.
Proof.
  revert seen. induction l as [|q rest IH]; intros seen; simpl.
  - by intros ?%elem_of_nil.
  - destruct (truthy (raw_id q) && negb (py_in (raw_id q) seen)) eqn:Hq.
    + apply andb_true_iff in Hq as [Htruthy Hunseen%negb_true_iff].
      intros [->|Hin]%elem_of_cons; [done|].
      apply IH in Hin as [? Hin]. split; [done|].
      rewrite py_in_app in Hin. by apply orb_false_iff in Hin as [? _].
    + apply IH.
Qed.

Lemma dedup_by_id_distinct seen l : distinct_ids (dedup_by_id seen l).
Proof.
  revert seen. induction l as [|p rest IH]; intros seen; simpl.
  - by intros i j ?? _ ?.
  - destruct (_ && _); [|apply IH].
    intros [|i] [|j] q1 q2 Hij Hi Hj; simpl in *; try lia.
    + simplify_eq. apply list_elem_of_lookup_2, dedup_by_id_unseen in Hj as [_ Hj].
      rewrite py_in_app in Hj. apply orb_false_iff in Hj as [_ Hj].
      simpl in Hj. by apply orb_false_iff in Hj as [? _].
    + eapply (IH _ i j); [lia|done..].
Qed.

Lemma dedup_by_id_app seen l1 l2 :
  dedup_by_id seen (l1 ++ l2) =
  dedup_by_id seen l1 ++
  dedup_by_id (seen ++ (raw_id <$> dedup_by_id seen l1)) l2.
Proof.
  revert seen. induction l1 as [|p rest IH]; intros seen; simpl.
  - by rewrite (right_id_L [] (++)).
  - destruct (_ && _); simpl; [|apply IH].
    rewrite IH. by rewrite <-(assoc_L (++)).
Qed.

Lemma dedup_by_id_covers seen l p :
  p ∈ l → truthy (raw_id p) = true →
  p ∈ dedup_by_id seen l ∨
  py_in (raw_id p) (seen ++ (raw_id <$> dedup_by_id seen l)) = true.
Proof.
  revert seen. induction l as [|q rest IH]; intros seen; simpl.
  - by intros ?%elem_of_nil.
  - intros [->|Hin]%elem_of_cons Htruthy.
    + rewrite Htruthy. simpl.
      destruct (py_in (raw_id q) seen) eqn:Hseen; simpl.
      * right. rewrite py_in_app, Hseen. done.
      * left. apply elem_of_cons. by left.
    + destruct (truthy (raw_id q) && negb (py_in (raw_id q) seen)).
      * destruct (IH (seen ++ [raw_id q]) Hin Htruthy) as [?|Hcov].
        -- left. apply elem_of_cons. by right.
        -- right. simpl. by rewrite <-(assoc_L (++)) in Hcov.
      * by apply IH.
Qed.

(** C4, as the code has it.  When the session has a connection and the
    service answers both queries with projects that carry an [id],
    [findUserProjects] sends the two requests and returns the projects of
    [own + group] deduplicated by id, skipping those whose id is falsy
    ([None], [0], the empty string): the owned projects kept come first, in
    their order, then the membership projects whose id is new; the result is
    a subsequence of each list, its ids are set and pairwise different, and
    every project with a set id is in it or has the id of one that is. *)
Theorem findUserProjects_merges_by_id (self : PavloviaSession) (w : World)
    (g : Gitlab.t) (own group : list Gitlab.Project) :
  gitlab self = Some g →
  list_projects (server w) (Gitlab.oauth_token g) owned_query = Ok own →
  list_projects (server w) (Gitlab.oauth_token g) membership_query = Ok group →
  Forall (λ p, is_Some (Gitlab._attrs p !! KStr "id")) (own ++ group) →
  let kept_own := dedup_by_id [] own in
  let kept_group := dedup_by_id (raw_id <$> kept_own) group in
  PavloviaSession.findUserProjects (self, w) =
    (Ok (wrap <$> (kept_own ++ kept_group)),
     (self, send (ListProjects (Gitlab.oauth_token g) membership_query)
              (send (ListProjects (Gitlab.oauth_token g) owned_query) w))) ∧
  sublist kept_own own ∧
  sublist kept_group group ∧
  Forall (λ p, truthy (raw_id p) = true) (kept_own ++ kept_group) ∧
  distinct_ids (kept_own ++ kept_group) ∧
  (∀ p, p ∈ own ++ group → truthy (raw_id p) = true →
        p ∈ kept_own ++ kept_group ∨
        py_in (raw_id p) (raw_id <$> (kept_own ++ kept_group)) = true).
Proof.
  intros Hg Hown Hgroup Hids kept_own kept_group.
  assert (kept_own ++ kept_group = dedup_by_id [] (own ++ group)) as Hkept.
  { by rewrite dedup_by_id_app. }
  rewrite Hkept. repeat split.
  - unfold PavloviaSession.findUserProjects.
    unfold bind, on_fst, on_snd, get, Gitlab_projects_list. simpl. rewrite Hg.
    unfold bind, modify, get, lift. simpl.
    fold owned_query membership_query. rewrite Hown, Hgroup.
    pose proof (findUserProjects_loop_refines (own ++ group) []) as Hloop.
    simpl in Hloop. by rewrite Hloop.
  - apply dedup_by_id_sublist.
  - apply dedup_by_id_sublist.
  - apply list.Forall_forall. intros p Hp.
    by apply dedup_by_id_unseen in Hp as [? _].
  - apply dedup_by_id_distinct.
  - intros p Hp Htruthy. by apply (dedup_by_id_covers []).
Qed.

Lemma findUserProjects_merges_by_id_witness :
  (λ r, match r with
        | Ok projs => Ok (PavloviaProject.id <$> projs)
        | Raise e => Raise e
        end)
    (PavloviaSession.findUserProjects
       (logged_in_session, demo_world ∅ logged_in_session)).1
    = Ok [VInt 1; VInt 2; VInt 3].
Proof.
  destruct (findUserProjects_merges_by_id logged_in_session
              (demo_world ∅ logged_in_session)
              {| Gitlab.url := rootURL; Gitlab.oauth_token := VStr "tok123";
                 Gitlab.user := Some {| Gitlab.username := "alice" |} |}
              [demo_project 1 "Study1"; demo_project 2 "Study2"]
              [demo_project 2 "Study2"; demo_project 3 "Study3"])
    as [-> _]; try reflexivity.
  repeat constructor; by eexists.
Defined.

(** The claim C4 promises a project for every distinct id.  The ids [0]
    and [1] are distinct, and of two owned projects with these ids only the
    second is returned. *)
Lemma findUserProjects_counterexample :
  let own := [demo_project 0 "Study0"; demo_project 1 "Study1"] in
  raw_id <$> own = [VInt 0; VInt 1] ∧
  py_eqb (VInt 0) (VInt 1) = false ∧
  (PavloviaSession.findUserProjects
     (logged_in_session, world_of (demo_server own []) ∅ logged_in_session)).1
    = Ok [wrap (demo_project 1 "Study1")].
Proof. vm_compute. repeat split. Qed.

(** * Further properties *)

(** ** The token store: what [load] and [save] do to the store and the disk *)

Lemma update_from_pairs_overlay items :
  ∃ (r : Result unit) (M : Dict), ∀ d, update_from_pairs items d = (r, M ∪ d).
Proof.
  induction items as [|item rest (r & M & IH)]; simpl.
  - exists (Ok ()), ∅. intros d. by rewrite (left_id_L ∅ (∪)).
  - unfold bind at 1, lift. destruct (pair_of_item item) as [kv|e].
    + unfold bind, dict_setitem, bind, lift, modify.
      destruct (py_hash kv.1) as [k|e].
      * exists r, (M ∪ {[k := kv.2]}). intros d. rewrite IH.
        by rewrite insert_union_singleton_l, (assoc_L (∪)).
      * exists (Raise e), ∅. intros d. by rewrite (left_id_L ∅ (∪)).
    + exists (Raise e), ∅. intros d. by rewrite (left_id_L ∅ (∪)).
Qed.

Lemma dict_update_overlay other :
  ∃ (r : Result unit) (M : Dict), ∀ d, dict_update other d = (r, M ∪ d).
Proof.
  destruct other as [| | |s|items|o]; simpl;
    try (eexists (Raise _), ∅; intros d; by rewrite (left_id_L ∅ (∪))).
  - destruct s.
    + exists (Ok ()), ∅. intros d. by rewrite (left_id_L ∅ (∪)).
    + eexists (Raise _), ∅. intros d. by rewrite (left_id_L ∅ (∪)).
  - apply update_from_pairs_overlay.
  - by exists (Ok ()), o.
Qed.

(** [load] as an overlay of the store. *)
Lemma load_overlay `{E : Externals}
    (w : World) (filename : option string) :
  ∃ (r : Result unit) (M : Dict),
    ∀ st, PavloviaTokenStorage.load filename w st = (r, M ∪ st).
Proof.
  unfold PavloviaTokenStorage.load.
  destruct (files w !! _) as [content|].
  - unfold except_ValueError_pass, bind, lift.
    destruct (json_load content) as [other|e].
    + destruct (dict_update_overlay other) as (r & M & Hupd).
      destruct r as [[]|e].
      * exists (Ok ()), M. intros st. by rewrite Hupd.
      * exists (if is_ValueError e then Ok () else Raise e), M.
        intros st. rewrite Hupd. by destruct (is_ValueError e).
    + exists (if is_ValueError e then Ok () else Raise e), ∅.
      intros st. rewrite (left_id_L ∅ (∪)). by destruct (is_ValueError e).
  - exists (Ok ()), ∅. intros st. by rewrite (left_id_L ∅ (∪)).
Qed.

(** X1. Running [load] on a store gives the outcome of running it on an
    empty store, and the store overlaid with the entries that run leaves:
    the entries already in the store decide nothing, and the file's entries
    win.  What the run on an empty store gives is read from the token file:
    nothing when the file is absent or the decoder raises, and the entries
    of the file when it holds a JSON object. *)
Theorem load_overlays_file_entries `{E : Externals}
    (w : World) (filename : option string) :
  (∀ st, PavloviaTokenStorage.load filename w st =
           ((PavloviaTokenStorage.load filename w ∅).1,
            (PavloviaTokenStorage.load filename w ∅).2 ∪ st)) ∧
  (files w !! token_path filename = None →
   PavloviaTokenStorage.load filename w ∅ = (Ok (), ∅)) ∧
  (∀ content e,
     files w !! token_path filename = Some content →
     json_load content = Raise e →
     PavloviaTokenStorage.load filename w ∅
     = (if is_ValueError e then Ok () else Raise e, ∅)) ∧
  (∀ content tokens,
     files w !! token_path filename = Some content →
     json_load content = Ok (VDict tokens) →
     PavloviaTokenStorage.load filename w ∅ = (Ok (), tokens)).
Proof.
  split; [|split; [|split]].
  - destruct (load_overlay w filename) as (r & M & Hload).
    intros st. rewrite !Hload. simpl. by rewrite (right_id_L ∅ (∪)).
  - apply load_missing.
  - intros content e. apply load_decoder_raises.
  - intros content tokens Hfile Hjson.
    rewrite (load_object _ _ _ _ _ Hfile Hjson). by rewrite (right_id_L ∅ (∪)).
Qed.

Lemma load_overlays_file_entries_witness :
  let file : gmap string string :=
    {[ "/home/user/.psychopy3/pavlovia.json" := demo_json_dumps
         (VDict (token_store {[ "alice" := "new" ]})) ]} in
  @PavloviaTokenStorage.load demo_externals None
     (demo_world file anonymous_session) ∅
  = (Ok (), token_store {[ "alice" := "new" ]}).
Proof.
  intros file.
  destruct (@load_overlays_file_entries demo_externals
              (demo_world file anonymous_session) None) as (_ & _ & _ & Hobject).
  apply (Hobject (demo_json_dumps (VDict (token_store {[ "alice" := "new" ]}))));
    vm_compute; reflexivity.
Defined.

(** X2. Loading twice from the same file gives what loading once gives,
    the same store and the same outcome, whatever the file holds. *)
Theorem load_idempotent `{E : Externals}
    (w : World) (filename : option string) (st : Dict) :
  PavloviaTokenStorage.load filename w
    (PavloviaTokenStorage.load filename w st).2
  = PavloviaTokenStorage.load filename w st.
Proof.
  destruct (load_overlay w filename) as (r & M & Hload).
  rewrite !Hload. simpl. by rewrite (assoc_L (∪)), (idemp_L (∪)).
Qed.

(** What [save] leaves alone. *)
Lemma save_frame `{E : Externals}
    (st : Dict) (filename : option string) (w : World) :
  let w' := (PavloviaTokenStorage.save st filename w).2 in
  (∀ p, p ≠ token_path filename → files w' !! p = files w !! p) ∧
  dirs w ⊆ dirs w' ∧
  dirs w' ⊆ {[userPrefsDir]} ∪ list_to_set (ancestors userPrefsDir) ∪ dirs w ∧
  server w' = server w ∧ requests w' = requests w ∧
  stdout w' = stdout w ∧ currentSession w' = currentSession w.
Proof.
  unfold PavloviaTokenStorage.save. fold (token_path filename).
  generalize (token_path filename). intros path.
  unfold bind, get, os_makedirs, open_wb, write, bytes_utf8, bind, get, modify,
    raise, ret.
  assert (∀ p c (f : gmap string string), p ≠ path →
            <[path := c]> f !! p = f !! p) as Hother.
  { intros p c f Hp. by rewrite lookup_insert_ne. }
  assert (∀ d : gset string,
            d ⊆ {[userPrefsDir]} ∪ list_to_set (ancestors userPrefsDir) ∪ d)
    as Hgrow by (intros d; apply union_subseteq_r).
  destruct (bool_decide (userPrefsDir ∈ dirs w)); simpl;
    [|destruct (bool_decide (userPrefsDir ∈ dirs w)
                || bool_decide (is_Some (files w !! userPrefsDir))); simpl;
        [by repeat split|];
      destruct (bool_decide (Exists _ (ancestors userPrefsDir))); simpl;
        [by repeat split|]];
    (destruct (bool_decide (path ∈ _)); simpl; [by repeat split|];
     destruct (bool_decide (Exists _ (ancestors path))); simpl;
       [by repeat split|];
     destruct (bool_decide (Exists _ (ancestors path))); simpl;
       [by repeat split|];
     destruct PY3; simpl; repeat split; try done;
       intros p Hp; by rewrite !Hother).
Qed.

(** X3. Whatever its outcome, [save] changes no file but the one it
    writes, removes no directory and makes at most the preferences directory
    and the directories above it, and leaves the service, the request log,
    the output and the current session alone. *)
Theorem save_changes_only_its_file `{E : Externals}
    (st : Dict) (filename : option string) (w : World) :
  let w' := (PavloviaTokenStorage.save st filename w).2 in
  (∀ p, p ≠ token_path filename → files w' !! p = files w !! p) ∧
  dirs w ⊆ dirs w' ∧
  dirs w' ⊆ {[userPrefsDir]} ∪ list_to_set (ancestors userPrefsDir) ∪ dirs w ∧
  server w' = server w ∧ requests w' = requests w ∧
  stdout w' = stdout w ∧ currentSession w' = currentSession w.
Proof. apply save_frame. Qed.

Lemma save_changes_only_its_file_witness :
  let w := demo_world {[ "/home/user/notes.txt" := "keep me" ]} anonymous_session in
  files (@PavloviaTokenStorage.save demo_externals
           (token_store {[ "alice" := "tok123" ]}) None w).2
    !! "/home/user/notes.txt" = Some "keep me".
Proof.
  intros w.
  destruct (@save_changes_only_its_file demo_externals
              (token_store {[ "alice" := "tok123" ]}) None w) as [Hfiles _].
  rewrite Hfiles; [reflexivity|].
  vm_compute. intros H. inversion H.
Defined.

(** X4. [save] raises [OSError] and changes nothing when the preferences
    directory cannot be made because a regular file has its name, and when
    the preferences directory exists and the file to write is itself a
    directory. *)
Theorem save_raises_OSError `{E : Externals}
    (st : Dict) (filename : option string) (w : World) :
  (userPrefsDir ∉ dirs w → is_Some (files w !! userPrefsDir) →
   PavloviaTokenStorage.save st filename w = (Raise (OSError "File exists"), w)) ∧
  (userPrefsDir ∈ dirs w → token_path filename ∈ dirs w →
   PavloviaTokenStorage.save st filename w = (Raise (OSError "Is a directory"), w)).
Proof.
  unfold PavloviaTokenStorage.save. fold (token_path filename).
  unfold bind, get, os_makedirs, open_wb, bind, get, raise, ret.
  split.
  - intros Hdir Hfile.
    rewrite (bool_decide_eq_false_2 _ Hdir), (bool_decide_eq_true_2 _ Hfile).
    by rewrite orb_true_r.
  - intros Hdir Hpath.
    by rewrite (bool_decide_eq_true_2 _ Hdir), (bool_decide_eq_true_2 _ Hpath).
Qed.

Lemma save_raises_OSError_witness :
  let w := demo_world {[ "/home/user/.psychopy3" := "a file, not a directory" ]}
                      anonymous_session in
  @PavloviaTokenStorage.save demo_externals ∅ None w
    = (Raise (OSError "File exists"), w).
Proof.
  intros w.
  apply (proj1 (@save_raises_OSError demo_externals ∅ None w)).
  - vm_compute. intros H. inversion H.
  - by eexists.
Defined.

(** X20. [save] also raises [OSError], and changes nothing, when a
    regular file stands where a directory above the preferences directory is
    needed, and when the preferences directory exists but a directory above
    the file to write is missing. *)
Theorem save_raises_on_broken_path `{E : Externals}
    (st : Dict) (filename : option string) (w : World) :
  (userPrefsDir ∉ dirs w → files w !! userPrefsDir = None →
   Exists (λ a, is_Some (files w !! a)) (ancestors userPrefsDir) →
   PavloviaTokenStorage.save st filename w
   = (Raise (OSError "Not a directory"), w)) ∧
  (userPrefsDir ∈ dirs w → token_path filename ∉ dirs w →
   Forall (λ a, files w !! a = None) (ancestors (token_path filename)) →
   Exists (λ a, a ∉ dirs w) (ancestors (token_path filename)) →
   PavloviaTokenStorage.save st filename w
   = (Raise (OSError "No such file or directory"), w)).
Proof.
  unfold PavloviaTokenStorage.save. fold (token_path filename).
  generalize (token_path filename). intros path.
  unfold bind, get, os_makedirs, open_wb, bind, get, raise, ret.
  split.
  - intros Hdir Hfile Habove.
    rewrite !(bool_decide_eq_false_2 (userPrefsDir ∈ dirs w)) by done.
    rewrite (bool_decide_eq_false_2 (is_Some (files w !! userPrefsDir)))
      by (rewrite Hfile; by intros [? ?]).
    simpl. by rewrite (bool_decide_eq_true_2 _ Habove).
  - intros Hdir Hpath Hnofile%Forall_no_file Hmissing.
    rewrite (bool_decide_eq_true_2 (userPrefsDir ∈ dirs w)) by done.
    rewrite (bool_decide_eq_false_2 (path ∈ dirs w)) by done.
    rewrite (bool_decide_eq_false_2 _ Hnofile).
    by rewrite (bool_decide_eq_true_2 _ Hmissing).
Qed.

Lemma save_raises_on_broken_path_witness :
  let w :=
    {| files := ∅;
       dirs := {[ "/home"; "/home/user"; "/home/user/.psychopy3" ]};
       server := server (demo_world ∅ anonymous_session);
       requests := []; stdout := []; currentSession := anonymous_session |} in
  @PavloviaTokenStorage.save demo_externals ∅
     (Some "/home/user/missing/x.json") w
  = (Raise (OSError "No such file or directory"), w).
Proof.
  intros w.
  apply (proj2 (@save_raises_on_broken_path demo_externals ∅
                  (Some "/home/user/missing/x.json") w)).
  - compute_done.
  - compute_done.
  - compute_done.
  - compute_done.
Defined.



(** ** Sessions: tokens, the connection and the token file *)

Lemma setToken_records_token `{E : Externals} (tok : PyVal)
    (self : PavloviaSession) (w : World) :
  token (PavloviaSession.setToken tok (self, w)).2.1 = Some tok.
Proof.
  unfold PavloviaSession.setToken.
  unfold bind, on_fst, on_snd, modify, get, lift, ret, Gitlab_auth, Gitlab_new,
    Gitlab_user_username, bind, modify, get, lift, ret. simpl.
  destruct (truthy tok); simpl; [|done].
  destruct (get_user (server w) tok) as [u|e]; simpl; [|done].
  destruct (remember_me self); simpl; [|done].
  unfold PavloviaTokenStorage.new, on_local, dict_setitem, bind, lift, modify.
  simpl. repeat case_match; simplify_eq; done.
Qed.

(** X6. After [setToken(tok)], [getToken()] gives [tok] back, whether
    [setToken] returned or raised: the token is recorded before anything can
    fail. *)
Theorem getToken_after_setToken `{E : Externals} (tok : PyVal)
    (self : PavloviaSession) (w : World) :
  PavloviaSession.getToken (PavloviaSession.setToken tok (self, w)).2.1 = Ok tok.
Proof.
  unfold PavloviaSession.getToken. by rewrite setToken_records_token.
Qed.

(** X7. When the service refuses a non-falsy token, [setToken] raises the
    service's error after exactly one request; the session keeps the new
    token and a connection handle that carries no user, so its [user] is
    absent even if it was logged in before, and nothing is written. *)
Theorem setToken_refused `{E : Externals} (tok : PyVal)
    (self : PavloviaSession) (w : World) (e : PyExn) :
  truthy tok = true →
  get_user (server w) tok = Raise e →
  PavloviaSession.setToken tok (self, w) =
    (Raise e, (set_gitlab (Gitlab_new rootURL tok) (set_token tok self),
               send (GetUser tok) w)) ∧
  PavloviaSession.user (PavloviaSession.setToken tok (self, w)).2.1 = None.
Proof.
  intros Htruthy Hrefused.
  assert (PavloviaSession.setToken tok (self, w) =
            (Raise e, (set_gitlab (Gitlab_new rootURL tok) (set_token tok self),
                       send (GetUser tok) w))) as Hset.
  { unfold PavloviaSession.setToken. rewrite Htruthy.
    unfold bind, on_fst, on_snd, modify, get, lift, ret, Gitlab_auth, Gitlab_new,
      bind, modify, get, lift, ret. simpl. by rewrite Hrefused. }
  by rewrite Hset.
Qed.

Lemma setToken_refused_witness :
  PavloviaSession.user
    (@PavloviaSession.setToken demo_externals (VStr "expired")
       (logged_in_session, demo_world ∅ logged_in_session)).2.1 = None.
Proof.
  apply (@setToken_refused demo_externals (VStr "expired") logged_in_session
           (demo_world ∅ logged_in_session) GitlabAuthenticationError);
    reflexivity.
Defined.

(** X8. [setToken] sends one request, the one for the current user, when
    the token is non-falsy and none otherwise, whatever happens next; and on
    a session that does not remember tokens it reads and writes no file and
    makes no directory. *)
Theorem setToken_requests_and_files `{E : Externals} (tok : PyVal)
    (self : PavloviaSession) (w : World) :
  let w' := (PavloviaSession.setToken tok (self, w)).2.2 in
  requests w' = requests w ++ (if truthy tok then [GetUser tok] else []) ∧
  (remember_me self = false → files w' = files w ∧ dirs w' = dirs w).
Proof.
  unfold PavloviaSession.setToken.
  unfold bind, on_fst, on_snd, modify, get, lift, ret, Gitlab_auth, Gitlab_new,
    Gitlab_user_username, bind, modify, get, lift, ret. simpl.
  destruct (truthy tok); simpl; [|by rewrite (right_id_L [] (++))].
  destruct (get_user (server w) tok) as [u|e]; simpl; [|done].
  destruct (remember_me self); simpl; [|done].
  split; [|done].
  unfold PavloviaTokenStorage.new, on_local, dict_setitem, bind, lift, modify.
  simpl.
  destruct (PavloviaTokenStorage.__init__ ∅ (send (GetUser tok) w))
    as [[[]|e] tokens]; simpl; [|done].
  pose proof (save_frame
                (<[KStr (Gitlab.username u) := tok]> tokens) None
                (send (GetUser tok) w)) as (_ & _ & _ & _ & Hreq & _).
  destruct (PavloviaTokenStorage.save _ None (send (GetUser tok) w))
    as [r w2]; simpl in *. by rewrite Hreq.
Qed.

Lemma setToken_requests_and_files_witness :
  let w := demo_world {[ "/home/user/notes.txt" := "keep me" ]} anonymous_session in
  let self :=
    {| username := VNone; password := VNone; userID := VNone;
       userFullName := VNone; remember_me := false; authenticated := false;
       currentProject := None; gitlab := None; token := None |} in
  files (@PavloviaSession.setToken demo_externals (VStr "tok123") (self, w)).2.2
    = files w.
Proof.
  intros w self.
  apply (@setToken_requests_and_files demo_externals (VStr "tok123") self w).
  reflexivity.
Defined.

(** [load] reads the world only through its files. *)
Lemma load_same_files `{E : Externals} filename (w1 w2 : World) (st : Dict) :
  files w1 = files w2 →
  PavloviaTokenStorage.load filename w1 st = PavloviaTokenStorage.load filename w2 st.
Proof. unfold PavloviaTokenStorage.load. by intros ->. Qed.

(** X9. Remembering a token persists it.  On a session that remembers
    tokens, when the service accepts a non-falsy token, the token file can
    be read, the preferences directory is there or can be made, the token
    file can be opened for writing and the [json] codec gives the new store
    back, [setToken] returns, and a fresh token store then holds the token
    under the authenticated user's name, beside the entries the file had
    before. *)
Theorem setToken_remembers_token `{E : Externals} (tok : PyVal)
    (self : PavloviaSession) (w : World) (u : Gitlab.User) (old : Dict) :
  truthy tok = true →
  get_user (server w) tok = Ok u →
  remember_me self = true →
  PavloviaTokenStorage.load None w ∅ = (Ok (), old) →
  can_make_prefs_dir w →
  can_write w (token_path None) →
  json_load (json_dumps (VDict (<[KStr (Gitlab.username u) := tok]> old)))
    = Ok (VDict (<[KStr (Gitlab.username u) := tok]> old)) →
  ∃ self' w',
    PavloviaSession.setToken tok (self, w) = (Ok (), (self', w')) ∧
    PavloviaTokenStorage.load None w' ∅
      = (Ok (), <[KStr (Gitlab.username u) := tok]> old).
Proof.
  intros Htruthy Hu Hremember Hold Hmake Hwrite Hjson.
  destruct (save_returns (<[KStr (Gitlab.username u) := tok]> old) None
              (send (GetUser tok) w) Hmake Hwrite)
    as (w' & Hsave & Hfiles & _).
  unfold PavloviaSession.setToken. rewrite Htruthy.
  unfold bind, on_fst, on_snd, modify, get, lift, ret, Gitlab_auth, Gitlab_new,
    Gitlab_user_username, bind, modify, get, lift, ret. simpl.
  rewrite Hu. simpl. rewrite Hremember. simpl.
  unfold PavloviaTokenStorage.new, PavloviaTokenStorage.__init__.
  rewrite (load_same_files None (send (GetUser tok) w) w ∅ eq_refl), Hold.
  unfold on_local, dict_setitem, bind, lift, modify. simpl.
  rewrite Hsave. do 2 eexists. split; [done|].
  erewrite load_object; [by rewrite (right_id_L ∅ (∪))| |done].
  by rewrite Hfiles, lookup_insert_eq.
Qed.

Lemma setToken_remembers_token_witness :
  let w :=
    {| files := {[ "/home/user/.psychopy3/pavlovia.json" :=
                     demo_json_dumps (VDict (token_store {[ "bob" := "b" ]})) ]};
       dirs := {[ "/home"; "/home/user"; "/home/user/.psychopy3" ]};
       server := server (demo_world ∅ anonymous_session);
       requests := []; stdout := []; currentSession := anonymous_session |} in
  ∃ self' w',
    @PavloviaSession.setToken demo_externals (VStr "tok123")
       (anonymous_session, w) = (Ok (), (self', w')) ∧
    @PavloviaTokenStorage.load demo_externals None w' ∅
      = (Ok (), <[KStr "alice" := VStr "tok123"]> (token_store {[ "bob" := "b" ]})).
Proof.
  intros w.
  apply (@setToken_remembers_token demo_externals (VStr "tok123")
           anonymous_session w {| Gitlab.username := "alice" |}
           (token_store {[ "bob" := "b" ]})).
  - reflexivity.
  - reflexivity.
  - reflexivity.
  - vm_compute. reflexivity.
  - left. compute_done.
  - unfold can_write. compute_done.
  - vm_compute. reflexivity.
Defined.

(** X10. Constructing a session with a falsy token (none, or the empty
    string) returns an anonymous session and touches nothing: no request is
    sent, no file read or written; the session has no connection handle and
    no user, and [getToken()] gives the falsy token back. *)
Theorem anonymous_session_construction `{E : Externals} (tok : PyVal)
    (remember : bool) (w : World) :
  truthy tok = false →
  ∃ s, PavloviaSession.__init__ tok remember w = (Ok s, w) ∧
       gitlab s = None ∧ PavloviaSession.user s = None ∧
       PavloviaSession.getToken s = Ok tok ∧ remember_me s = remember.
Proof.
  intros Hfalsy. unfold PavloviaSession.__init__, PavloviaSession.setToken.
  rewrite Hfalsy. eexists. by split.
Qed.

Lemma anonymous_session_construction_witness :
  ∃ s, @PavloviaSession.__init__ demo_externals VNone true
         (demo_world ∅ anonymous_session)
         = (Ok s, demo_world ∅ anonymous_session) ∧
       gitlab s = None ∧ PavloviaSession.user s = None ∧
       PavloviaSession.getToken s = Ok VNone ∧ remember_me s = true.
Proof.
  apply (@anonymous_session_construction demo_externals VNone true
           (demo_world ∅ anonymous_session)).
  reflexivity.
Defined.

(** X11. After a [setToken] that returned on a non-falsy token, the [user]
    property is the user the service named for that token, and the
    session's [username] is that user's name. *)
Theorem user_after_setToken `{E : Externals} (tok : PyVal)
    (self self' : PavloviaSession) (w w' : World) :
  truthy tok = true →
  PavloviaSession.setToken tok (self, w) = (Ok (), (self', w')) →
  ∃ u, get_user (server w) tok = Ok u ∧
       PavloviaSession.user self' = Some u ∧
       username self' = VStr (Gitlab.username u).
Proof.
  intros Htruthy Hset.
  destruct (setToken_success tok self self' w w' Htruthy Hset)
    as (u & Hu & Hg & Hname).
  exists u. unfold PavloviaSession.user. by rewrite Hg.
Qed.

Lemma user_after_setToken_witness :
  let self :=
    {| username := VNone; password := VNone; userID := VNone;
       userFullName := VNone; remember_me := false; authenticated := false;
       currentProject := None; gitlab := None; token := None |} in
  ∃ u, PavloviaSession.user
         (@PavloviaSession.setToken demo_externals (VStr "tok123")
            (self, demo_world ∅ anonymous_session)).2.1 = Some u ∧
       Gitlab.username u = "alice".
Proof.
  intros self.
  destruct (@user_after_setToken demo_externals (VStr "tok123") self
              (@PavloviaSession.setToken demo_externals (VStr "tok123")
                 (self, demo_world ∅ anonymous_session)).2.1
              (demo_world ∅ anonymous_session)
              (@PavloviaSession.setToken demo_externals (VStr "tok123")
                 (self, demo_world ∅ anonymous_session)).2.2
              eq_refl) as (u & Hu & Huser & _).
  - reflexivity.
  - exists u. split; [exact Huser|].
    vm_compute in Hu. by injection Hu as <-.
Defined.

(** ** Sessions: listing projects *)

Lemma findProjects_comprehension_filters (rawProjs : list Gitlab.Project)
    (w : World) :
  Forall (λ p, is_Some (Gitlab._attrs p !! KStr "id")) rawProjs →
  PavloviaSession.findProjects_comprehension rawProjs w =
    (Ok (wrap <$> filter (λ p, truthy (raw_id p) = true) rawProjs), w).
Proof.
  induction rawProjs as [|p rest IH]; intros Hids; simpl; [done|].
  apply Forall_cons_1 in Hids as [[id Hid] Hrest].
  unfold bind at 1, lift, Gitlab.getattr. rewrite Hid.
  assert (raw_id p = id) as Hraw by (unfold raw_id; by rewrite Hid).
  rewrite filter_cons, Hraw. destruct (truthy id); simpl.
  - unfold bind, PavloviaProject.new, lift, PavloviaProject.bind_arguments.
    simpl. rewrite (IH Hrest). done.
  - by apply IH.
Qed.

(** X12. On a session with a connection, when the service answers the
    search with projects that carry an [id], [findProjects] sends that one
    query and returns the answer in the service's order, leaving out only
    the projects whose id is falsy: duplicates stay, and the [tags] argument
    has no effect. *)
Theorem findProjects_filters_falsy_ids (self : PavloviaSession) (w : World)
    (g : Gitlab.t) (search_str tags : PyVal) (rawProjs : list Gitlab.Project) :
  gitlab self = Some g →
  list_projects (server w) (Gitlab.oauth_token g)
    (PavloviaSession.search_query search_str) = Ok rawProjs →
  Forall (λ p, is_Some (Gitlab._attrs p !! KStr "id")) rawProjs →
  PavloviaSession.findProjects search_str tags (self, w) =
    (Ok (wrap <$> filter (λ p, truthy (raw_id p) = true) rawProjs),
     (self, send (ListProjects (Gitlab.oauth_token g)
                    (PavloviaSession.search_query search_str)) w)).
Proof.
  intros Hg Hlist Hids. unfold PavloviaSession.findProjects.
  unfold bind, on_fst, on_snd, get, Gitlab_projects_list. simpl. rewrite Hg.
  unfold bind, modify, get, lift. simpl. rewrite Hlist.
  by rewrite findProjects_comprehension_filters.
Qed.

Lemma findProjects_filters_falsy_ids_witness :
  let srv := demo_server [] [demo_project 2 "Study2"; demo_project 0 "Study0";
                             demo_project 2 "Study2"] in
  (PavloviaSession.findProjects (VStr "Study") (VStr "psychopy")
     (logged_in_session, world_of srv ∅ logged_in_session)).1
    = Ok [wrap (demo_project 2 "Study2"); wrap (demo_project 2 "Study2")].
Proof.
  intros srv.
  rewrite (findProjects_filters_falsy_ids logged_in_session
             (world_of srv ∅ logged_in_session)
             {| Gitlab.url := rootURL; Gitlab.oauth_token := VStr "tok123";
                Gitlab.user := Some {| Gitlab.username := "alice" |} |}
             (VStr "Study") (VStr "psychopy")
             [demo_project 2 "Study2"; demo_project 0 "Study0";
              demo_project 2 "Study2"]); try reflexivity.
  repeat constructor; by eexists.
Defined.

(** X13. On a session without a connection handle, [findProjects] and
    [findUserProjects] raise [AttributeError] and send nothing. *)
Theorem listing_needs_a_connection (self : PavloviaSession) (w : World)
    (search_str tags : PyVal) :
  gitlab self = None →
  PavloviaSession.findProjects search_str tags (self, w) =
    (Raise (AttributeError "'NoneType' object has no attribute 'projects'"),
     (self, w)) ∧
  PavloviaSession.findUserProjects (self, w) =
    (Raise (AttributeError "'NoneType' object has no attribute 'projects'"),
     (self, w)).
Proof.
  intros Hg. unfold PavloviaSession.findProjects, PavloviaSession.findUserProjects.
  unfold bind, on_fst, on_snd, get, Gitlab_projects_list. simpl.
  by rewrite Hg.
Qed.

Lemma listing_needs_a_connection_witness :
  PavloviaSession.findUserProjects
    (anonymous_session, demo_world ∅ anonymous_session) =
    (Raise (AttributeError "'NoneType' object has no attribute 'projects'"),
     (anonymous_session, demo_world ∅ anonymous_session)).
Proof.
  apply (listing_needs_a_connection anonymous_session
           (demo_world ∅ anonymous_session) VNone VNone).
  reflexivity.
Defined.

Lemma findUserProjects_loop_missing_id (todo : list Gitlab.Project)
    (projs : list PavloviaProject) (projIDs : list PyVal) (w : World) :
  Exists (λ p, Gitlab._attrs p !! KStr "id" = None) todo →
  PavloviaSession.findUserProjects_loop todo projs projIDs w =
    (Raise (AttributeError "id"), w).
Proof.
  revert projs projIDs.
  induction todo as [|p rest IH]; intros projs projIDs Hmissing; simpl.
  - by apply Exists_nil in Hmissing.
  - unfold bind at 1, lift, Gitlab.getattr.
    destruct (Gitlab._attrs p !! KStr "id") as [id|] eqn:Hid; [|done].
    apply Exists_cons in Hmissing as [Hp|Hrest]; [congruence|].
    destruct (truthy id && negb (py_in id projIDs)); [|by apply IH].
    unfold bind, PavloviaProject.new, lift, PavloviaProject.bind_arguments.
    simpl. by apply IH.
Qed.

(** X14. One project without an [id] attribute in either answer makes
    [findUserProjects] fail as a whole: it raises [AttributeError] for
    [id] after both requests, and returns none of the other projects. *)
Theorem findUserProjects_needs_ids (self : PavloviaSession) (w : World)
    (g : Gitlab.t) (own group : list Gitlab.Project) :
  gitlab self = Some g →
  list_projects (server w) (Gitlab.oauth_token g) owned_query = Ok own →
  list_projects (server w) (Gitlab.oauth_token g) membership_query = Ok group →
  Exists (λ p, Gitlab._attrs p !! KStr "id" = None) (own ++ group) →
  PavloviaSession.findUserProjects (self, w) =
    (Raise (AttributeError "id"),
     (self, send (ListProjects (Gitlab.oauth_token g) membership_query)
              (send (ListProjects (Gitlab.oauth_token g) owned_query) w))).
Proof.
  intros Hg Hown Hgroup Hmissing. unfold PavloviaSession.findUserProjects.
  unfold bind, on_fst, on_snd, get, Gitlab_projects_list. simpl. rewrite Hg.
  unfold bind, modify, get, lift. simpl. rewrite Hown, Hgroup.
  by rewrite findUserProjects_loop_missing_id.
Qed.

Lemma findUserProjects_needs_ids_witness :
  let nameless : Gitlab.Project :=
    {| Gitlab._attrs := {[ KStr "name" := VStr "Study" ]};
       Gitlab.attributes := {[ KStr "name" := VStr "Study" ]};
       Gitlab.dict_attributes := None |} in
  (PavloviaSession.findUserProjects
     (logged_in_session,
      world_of (demo_server [demo_project 1 "Study1"] [nameless]) ∅
               logged_in_session)).1
    = Raise (AttributeError "id").
Proof.
  intros nameless.
  rewrite (findUserProjects_needs_ids logged_in_session
             (world_of (demo_server [demo_project 1 "Study1"] [nameless]) ∅
                       logged_in_session)
             {| Gitlab.url := rootURL; Gitlab.oauth_token := VStr "tok123";
                Gitlab.user := Some {| Gitlab.username := "alice" |} |}
             [demo_project 1 "Study1"] [nameless]); try reflexivity.
  apply Exists_cons_tl, Exists_cons_hd. reflexivity.
Defined.

(** ** Logging in *)

(** X15. [login] takes its argument as a user name when the module's token
    store has it as a key, and uses the stored token; otherwise the
    argument is the token.  When [setToken] returns for that non-falsy
    token, [login] returns whatever [rememberMe] is, the current session is
    the one [setToken] left, with the user the service named, and
    [pavloviaUser] in the preferences is that user's name. *)
Theorem login_records_authenticated_user `{E : Externals}
    (tokenOrUsername : PyVal) (rememberMe : bool) (globals : Globals)
    (w w' : World) (key : PyKey) (self' : PavloviaSession) :
  py_hash tokenOrUsername = Ok key →
  let tok := default tokenOrUsername (tokenStorage globals !! key) in
  truthy tok = true →
  PavloviaSession.setToken tok (currentSession w, w) = (Ok (), (self', w')) →
  ∃ u, get_user (server w) tok = Ok u ∧
       PavloviaSession.user self' = Some u ∧
       login tokenOrUsername rememberMe (globals, w) =
         (Ok (),
          (set_appData_projects
             (λ d, <[KStr "pavloviaUser" := VStr (Gitlab.username u)]> d) globals,
           set_currentSession self' w')).
Proof.
  intros Hkey tok Htruthy Hset.
  destruct (setToken_success tok _ self' w w' Htruthy Hset)
    as (u & Hu & Hg & Hname).
  exists u. split; [done|].
  assert (PavloviaSession.user self' = Some u) as Huser.
  { unfold PavloviaSession.user. by rewrite Hg. }
  split; [done|].
  unfold login, bind, on_fst, on_snd, get, lift, on_currentSession. simpl.
  rewrite Hkey. simpl.
  replace (match tokenStorage globals !! key with
           | Some stored => stored
           | None => tokenOrUsername
           end) with tok by (subst tok; by destruct (tokenStorage globals !! key)).
  rewrite Hset. simpl.
  unfold currentSession_user_username. simpl. rewrite Huser. done.
Qed.

Lemma login_records_authenticated_user_witness :
  let globals :=
    {| tokenStorage := token_store {[ "alice" := "tok123" ]};
       appData_projects := ∅ |} in
  let session :=
    {| username := VNone; password := VNone; userID := VNone;
       userFullName := VNone; remember_me := false; authenticated := false;
       currentProject := None; gitlab := None; token := Some VNone |} in
  appData_projects
    (@login demo_externals (VStr "alice") true
       (globals, demo_world ∅ session)).2.1
    !! KStr "pavloviaUser" = Some (VStr "alice").
Proof.
  intros globals session.
  destruct (@login_records_authenticated_user demo_externals (VStr "alice") true
              globals (demo_world ∅ session)
              (@PavloviaSession.setToken demo_externals (VStr "tok123")
                 (session, demo_world ∅ session)).2.2
              (KStr "alice")
              (@PavloviaSession.setToken demo_externals (VStr "tok123")
                 (session, demo_world ∅ session)).2.1)
    as (u & Hu & _ & Hlogin); [reflexivity..|].
  rewrite Hlogin. simpl. rewrite lookup_insert_eq.
  vm_compute in Hu. by injection Hu as <-.
Defined.

(** X16. With a falsy token (the argument is falsy and not a stored name,
    or the stored token is falsy) [login] sends nothing and only records
    the token in the current session.  It then raises [AttributeError] when
    that session has no authenticated user, leaving the preferences as they
    were; when the session was logged in before, it returns and records
    that earlier user's name. *)
Theorem login_with_falsy_token `{E : Externals}
    (tokenOrUsername : PyVal) (rememberMe : bool) (globals : Globals)
    (w : World) (key : PyKey) :
  py_hash tokenOrUsername = Ok key →
  let tok := default tokenOrUsername (tokenStorage globals !! key) in
  truthy tok = false →
  let w' := set_currentSession (set_token tok (currentSession w)) w in
  login tokenOrUsername rememberMe (globals, w) =
    match PavloviaSession.user (currentSession w) with
    | Some u =>
        (Ok (),
         (set_appData_projects
            (λ d, <[KStr "pavloviaUser" := VStr (Gitlab.username u)]> d) globals,
          w'))
    | None =>
        (Raise (AttributeError "'NoneType' object has no attribute 'username'"),
         (globals, w'))
    end.
Proof.
  intros Hkey tok Hfalsy w'.
  unfold login, bind, on_fst, on_snd, get, lift, on_currentSession. simpl.
  rewrite Hkey. simpl.
  replace (match tokenStorage globals !! key with
           | Some stored => stored
           | None => tokenOrUsername
           end) with tok by (subst tok; by destruct (tokenStorage globals !! key)).
  unfold PavloviaSession.setToken. rewrite Hfalsy.
  unfold bind, on_fst, modify, ret. simpl.
  unfold currentSession_user_username, PavloviaSession.user. simpl.
  destruct (gitlab (currentSession w)) as [g|]; [|done].
  by destruct (Gitlab.user g).
Qed.

Lemma login_with_falsy_token_witness :
  let globals := {| tokenStorage := ∅; appData_projects := ∅ |} in
  (@login demo_externals (VStr "") true
     (globals, demo_world ∅ anonymous_session)).1
    = Raise (AttributeError "'NoneType' object has no attribute 'username'") ∧
  appData_projects
    (@login demo_externals (VStr "") true
       (globals, demo_world ∅ logged_in_session)).2.1
    !! KStr "pavloviaUser" = Some (VStr "alice").
Proof.
  intros globals. split.
  - rewrite (@login_with_falsy_token demo_externals (VStr "") true globals
               (demo_world ∅ anonymous_session) (KStr "")); reflexivity.
  - rewrite (@login_with_falsy_token demo_externals (VStr "") true globals
               (demo_world ∅ logged_in_session) (KStr "")); reflexivity.
Defined.

(** ** Projects and the authorisation URL *)

(** X17. [str(project)] raises [TypeError] for every project: the format
    of [__str__] has no conversion, so the two arguments given to [%] are
    left over. *)
Theorem str_raises_TypeError (str_of : PyVal → string) (self : PavloviaProject) :
  PavloviaProject.__str__ str_of self =
    Raise (TypeError "not all arguments converted during string formatting").
Proof. reflexivity. Qed.

Lemma append_cancel_l (p a b : string) : p +:+ a = p +:+ b → a = b.
Proof.
  induction p as [|c p IH]; simpl; [done|]. intros [= H]. by apply IH.
Qed.

(** X18. The URL [getAuthURL] builds determines the state it returns
    with it: two calls that give the same URL give the same state, so a
    fresh identifier always gives a fresh URL. *)
Theorem getAuthURL_determines_state (uuid1 uuid2 : string) :
  (getAuthURL uuid1).1 = (getAuthURL uuid2).1 →
  (getAuthURL uuid1).2 = (getAuthURL uuid2).2.
Proof.
  unfold getAuthURL. simpl. intros Hurl.
  by repeat apply append_cancel_l in Hurl.
Qed.

Lemma getAuthURL_determines_state_witness :
  (getAuthURL "6f1c0a52-5b7e-4c1d-9a3e-0d2f4b8c7e11").2
    = "6f1c0a52-5b7e-4c1d-9a3e-0d2f4b8c7e11".
Proof.
  apply (getAuthURL_determines_state
           "6f1c0a52-5b7e-4c1d-9a3e-0d2f4b8c7e11"
           "6f1c0a52-5b7e-4c1d-9a3e-0d2f4b8c7e11").
  reflexivity.
Defined.

Lemma getattr_searches (self : PavloviaProject) (name : string) :
  name ≠ "owner" →
  PavloviaProject.__getattr__ self name =
    match PavloviaProject.search (PavloviaProject.toSearch self) name with
    | Some v => Ok v
    | None =>
        Raise (AttributeError ("No attribute '" +:+ name +:+ "' in PavloviaProject"))
    end.
Proof.
  intros Hname. unfold PavloviaProject.__getattr__.
  rewrite (proj2 (String.eqb_neq name "owner") Hname).
  destruct (PavloviaProject.search _ name); [done|].
  by destruct (String.eqb name "id").
Qed.

(** X19. The properties [title] and [tags] read [name] and [tag_list]
    through [__getattr__]; when no source has that field, attribute access
    falls back to looking up [title] (or [tags]) itself, so that a field of
    that very name is returned if there is one, and the error otherwise
    names [title] (or [tags]), not the field that was missing. *)
Theorem title_and_tags_fall_back (self : PavloviaProject) :
  PavloviaProject.title self =
    match PavloviaProject.search (PavloviaProject.toSearch self) "name" with
    | Some v => Ok v
    | None =>
        match PavloviaProject.search (PavloviaProject.toSearch self) "title" with
        | Some v => Ok v
        | None => Raise (AttributeError "No attribute 'title' in PavloviaProject")
        end
    end ∧
  PavloviaProject.tags self =
    match PavloviaProject.search (PavloviaProject.toSearch self) "tag_list" with
    | Some v => Ok v
    | None =>
        match PavloviaProject.search (PavloviaProject.toSearch self) "tags" with
        | Some v => Ok v
        | None => Raise (AttributeError "No attribute 'tags' in PavloviaProject")
        end
    end.
Proof.
  unfold PavloviaProject.title, PavloviaProject.tags,
    PavloviaProject.property_fallback.
  rewrite !getattr_searches by done. split.
  - destruct (PavloviaProject.search _ "name"); [done|].
    by destruct (PavloviaProject.search _ "title").
  - destruct (PavloviaProject.search _ "tag_list"); [done|].
    by destruct (PavloviaProject.search _ "tags").
Qed.
